(** * A shallow embedding of [http_server.py]

    The request pipeline of the socket HTTP server: [parse_request],
    [response_path], the three response builders and the [try]/[except]
    block of [server] that ties them together.

    Python [str] values are sequences of Unicode code points, [bytes] values
    are sequences of bytes; both are lists here, and the few sequence methods
    the server calls ([split], [join], [startswith], [endswith], [in],
    slicing) are written once, over any element type with a boolean equality.
    Exceptions are values of an error monad.  Everything the server asks of
    its host (working directory, file system, the [python] executable, the
    [mimetypes] table) is a field of a [world] record. *)

From Stdlib Require Import Strings.String Strings.Ascii Strings.Byte.
From Stdlib Require Import List Bool Arith NArith ZArith Lia.
From Equations Require Import Equations.
Import ListNotations.

Set Implicit Arguments.

(** ** Python sequences *)

Module PySeq.
Section Ops.
Context {A : Type}.
Variable eqb : A -> A -> bool.

(** [s.startswith(p)] *)
Fixpoint startswith (s p : list A) {struct p} : bool :=
  match p, s with
  | [], _ => true
  | _ :: _, [] => false
  | x :: p', y :: s' => eqb x y && startswith s' p'
  end.

(** [s == t] *)
Fixpoint seq_eqb (s t : list A) : bool :=
  match s, t with
  | [], [] => true
  | x :: s', y :: t' => eqb x y && seq_eqb s' t'
  | _, _ => false
  end.

(** [s.endswith(p)]: the last [len(p)] elements of [s] are [p]. *)
Definition endswith (s p : list A) : bool :=
  (length p <=? length s) && seq_eqb (skipn (length s - length p) s) p.

(** [p in s] *)
Fixpoint contains (s p : list A) : bool :=
  startswith s p ||
  match s with
  | [] => false
  | _ :: s' => contains s' p
  end.

(** [sep.join(parts)] *)
Fixpoint join (sep : list A) (parts : list (list A)) : list A :=
  match parts with
  | [] => []
  | [x] => x
  | x :: rest => x ++ sep ++ join sep rest
  end.

(** Cutting [s] at the leftmost occurrence of [sep], as [s.partition(sep)]
    and [s.split(sep, 1)] do: what precedes the occurrence and what follows
    it, or [None] when [sep] does not occur. *)
Fixpoint split_once (sep s : list A) : option (list A * list A) :=
  if startswith s sep then Some ([], skipn (length sep) s)
  else match s with
       | [] => None
       | c :: r =>
           match split_once sep r with
           | Some (a, b) => Some (c :: a, b)
           | None => None
           end
       end.

Definition inspect {B : Type} (b : B) : {x : B | x = b} := exist _ b eq_refl.

(** [s.split(sep)] with an explicit separator: cut at the leftmost
    occurrence and go on with what follows it.  Python raises [ValueError]
    for an empty separator; the server only splits on the constants CRLF
    and SP, and the model returns [[s]] in that unreachable case. *)
Equations? split (sep s : list A) : list (list A) by wf (length s) lt :=
  split [] s := [s];
  split (c :: sep') s with inspect (split_once (c :: sep') s) := {
    | exist _ None _ => [s]
    | exist _ (Some (a, rest)) E => a :: split (c :: sep') rest }.
Proof.
  clear split. symmetry in E. revert a E.
  induction s as [|x r IH]; intros a E.
  - discriminate.
  - cbn [split_once] in E.
    destruct (startswith (x :: r) (c :: sep')).
    + injection E as <- <-. cbn [length]. rewrite length_skipn. lia.
    + destruct (split_once (c :: sep') r) as [[a' b']|]; [|discriminate].
      injection E as <- <-. specialize (IH _ eq_refl). cbn [length]. lia.
Qed.

End Ops.
End PySeq.

(** ** Text and bytes *)

(** A Python [str]: its code points. *)
Definition str := list N.
(** A Python [bytes]. *)
Definition bytes := list byte.

Definition str_eqb : str -> str -> bool := PySeq.seq_eqb N.eqb.

(** A [str] literal (code points below 256). *)
Definition u (s : string) : str := map Byte.to_N (list_byte_of_string s).
(** A [bytes] literal. *)
Definition b (s : string) : bytes := list_byte_of_string s.
Arguments u : simpl never.
Arguments b : simpl never.

Definition CR : ascii := ascii_of_nat 13.
Definition LF : ascii := ascii_of_nat 10.
(** ["\r\n"] as a literal. *)
Definition crlf : string := String CR (String LF EmptyString).
Definition CRLF : str := u crlf.
Definition SP : str := u " ".
Definition bCRLF : bytes := b crlf.

(** ** Exceptions *)

Inductive exn : Type :=
| ValueError
| IndexError
| NotImplementedError
| NameError
| AttributeError
| UnicodeEncodeError
| FileNotFoundError
| NotADirectoryError
| IsADirectoryError.

Inductive result (A : Type) : Type :=
| Ok (a : A)
| Raise (e : exn).
Arguments Ok {A} a.
Arguments Raise {A} e.

Definition bind {A B : Type} (m : result A) (k : A -> result B) : result B :=
  match m with
  | Ok a => k a
  | Raise e => Raise e
  end.

(** [try: body  except ...: handler] *)
Definition try_except {A : Type} (body : result A) (handler : exn -> result A)
  : result A :=
  match body with
  | Ok a => Ok a
  | Raise e => handler e
  end.

Declare Scope py_scope.
Delimit Scope py_scope with py.
Notation "x <- m ;; k" := (bind m (fun x => k))
  (at level 61, m at next level, right associativity) : py_scope.
Notation "' pat <- m ;; k" := (bind m (fun x => match x with pat => k end))
  (at level 61, pat pattern, m at next level, right associativity) : py_scope.
Open Scope py_scope.

(** ** [str.encode("utf-8")] *)

Definition byte_of_N (n : N) : byte :=
  match Byte.of_N n with
  | Some x => x
  | None => x00
  end.

(** Continuation byte carrying bits [6k+5 .. 6k] of [c]. *)
Definition utf8_cont (c : N) (k : N) : byte :=
  byte_of_N (N.lor 128 (N.land (N.shiftr c (6 * k)) 63)).

(** The encoder is strict: a surrogate code point (which [os.listdir] uses to
    escape file-name bytes that are not UTF-8) raises [UnicodeEncodeError]. *)
Definition utf8_encode_char (c : N) : result bytes :=
  if (c <? 128)%N then Ok [byte_of_N c]
  else if (c <? 2048)%N then
    Ok [byte_of_N (N.lor 192 (N.shiftr c 6)); utf8_cont c 0]
  else if (c <? 65536)%N then
    if ((55296 <=? c) && (c <=? 57343))%N then Raise UnicodeEncodeError
    else Ok [byte_of_N (N.lor 224 (N.shiftr c 12)); utf8_cont c 1; utf8_cont c 0]
  else if (c <? 1114112)%N then
    Ok [byte_of_N (N.lor 240 (N.shiftr c 18)); utf8_cont c 2; utf8_cont c 1;
        utf8_cont c 0]
  else Raise UnicodeEncodeError.

Fixpoint encode_utf8 (s : str) : result bytes :=
  match s with
  | [] => Ok []
  | c :: s' =>
      x <- utf8_encode_char c ;;
      y <- encode_utf8 s' ;;
      Ok (x ++ y)
  end.

(** ** The host of the server *)

(** What a location of the file system holds.  [Directory] carries the entry
    names in the order [os.listdir] reports them. *)
Inductive node : Type :=
| Missing
| Directory (names : list str)
| Regular (content : bytes).

(** The value [subprocess.run(..., capture_output=True)] returns. *)
Record CompletedProcess : Type := {
  returncode : Z;
  stdout : bytes;
  stderr : bytes
}.

Record world : Type := {
  (** [os.getcwd()], which [os.path.abspath] resolves relative names against *)
  cwd : str;
  (** the file system, by location *)
  fs : str -> node;
  (** the [python] executable on the search path, if there is one: what a run
      of it on a script location produces *)
  python : option (str -> CompletedProcess);
  (** the table behind [mimetypes.guess_type(name)[0]]; type names are ASCII *)
  mime_db : str -> option string
}.

(** [os.path.join(a, p)] of [posixpath]: an absolute [p] replaces [a];
    otherwise the two are put together with exactly one separator. *)
Definition os_path_join (a p : str) : str :=
  if PySeq.startswith N.eqb p (u "/") then p
  else if str_eqb a [] || PySeq.endswith N.eqb a (u "/") then a ++ p
  else a ++ u "/" ++ p.

(** [os.path.abspath(name)] for a plain relative name: the working directory
    joined with it (the normalisation step has nothing to do on such a
    path). *)
Definition os_path_abspath (w : world) (name : str) : str :=
  os_path_join (cwd w) name.

Definition os_path_isdir (w : world) (location : str) : bool :=
  match fs w location with
  | Directory _ => true
  | _ => false
  end.

Definition os_listdir (w : world) (location : str) : result (list str) :=
  match fs w location with
  | Directory names => Ok names
  | Regular _ => Raise NotADirectoryError
  | Missing => Raise FileNotFoundError
  end.

(** [open(location, "rb").read()] *)
Definition open_rb_read (w : world) (location : str) : result bytes :=
  match fs w location with
  | Regular content => Ok content
  | Directory _ => Raise IsADirectoryError
  | Missing => Raise FileNotFoundError
  end.

(** [subprocess.run(["python", location], capture_output=True)]: launching
    raises [FileNotFoundError] when the executable [python] itself cannot be
    found; a launched interpreter always yields a [CompletedProcess], whatever
    it exits with and whether or not [location] exists. *)
Definition subprocess_run (w : world) (location : str) : result CompletedProcess :=
  match python w with
  | Some run => Ok (run location)
  | None => Raise FileNotFoundError
  end.

(** [mimetypes.guess_type(path)[0]] *)
Definition guess_type (w : world) (path : str) : option str :=
  option_map u (mime_db w path).

(** ** Response builders *)

Definition response_ok (body mimetype : bytes) : bytes :=
  PySeq.join bCRLF [
    b "HTTP/1.1 200 OK";
    b "Content-Type: " ++ mimetype;
    b "";
    body
  ].

Definition response_ok_default_body : bytes := b "This is a minimal response".
Definition response_ok_default_mimetype : bytes := b "text/plain".

Definition response_method_not_allowed : bytes :=
  PySeq.join bCRLF [
    b "HTTP/1.1 405 Method Not Allowed";
    b "";
    b "You can't do that on this server!"
  ].

Definition response_not_found : bytes :=
  PySeq.join bCRLF [
    b "HTTP/1.1 404 Not Found";
    b "";
    b "Could not find resource on this server."
  ].

(** ** [parse_request] *)

(** [request.split("\r\n")[0]] *)
Definition first_line (request : str) : result str :=
  match PySeq.split N.eqb CRLF request with
  | line :: _ => Ok line
  | [] => Raise IndexError
  end.

(** The tokens the tuple assignment of [parse_request] unpacks. *)
Definition request_tokens (request : str) : result (list str) :=
  line <- first_line request ;;
  Ok (PySeq.split N.eqb SP line).

Definition parse_request (request : str) : result str :=
  tokens <- request_tokens request ;;
  match tokens with
  | [method; path; version] =>
      if negb (str_eqb method (u "GET")) then Raise NotImplementedError
      else Ok path
  | _ => Raise ValueError
  end.

(** ** [response_path] *)

Definition home_dir (w : world) : str := os_path_abspath w (u "webroot").

(** [os.path.join(home_dir, path[1:])] *)
Definition location (w : world) (path : str) : str :=
  os_path_join (home_dir w) (skipn 1 path).

Definition response_path (w : world) (path : str) : result (bytes * bytes) :=
  let location := location w path in
  try_except
    (if PySeq.endswith N.eqb path (u ".py") then
       results <- subprocess_run w location ;;
       Ok (stdout results, b "text/html")
     else if os_path_isdir w location then
       listing <- os_listdir w location ;;
       content <- encode_utf8 (PySeq.join CRLF listing) ;;
       Ok (content, b "text/plain")
     else
       content <- open_rb_read w location ;;
       match guess_type w path with
       | None => Raise AttributeError
       | Some file_type =>
           mimetype <- encode_utf8 file_type ;;
           Ok (content, mimetype)
       end)
    (fun e =>
       match e with
       | FileNotFoundError => Raise NameError
       | _ => Raise e
       end).

(** ** The dispatch in [server] *)

(** The inner [try] of [server]: the response handed to [conn.sendall], or the
    exception that leaves the block. *)
Definition server_dispatch (w : world) (request : str) : result bytes :=
  try_except
    (path <- parse_request request ;;
     '(content, mimetype) <- response_path w path ;;
     Ok (response_ok content mimetype))
    (fun e =>
       match e with
       | NotImplementedError => Ok response_method_not_allowed
       | NameError => Ok response_not_found
       | _ => Raise e
       end).

(** What the peer receives for one request: the outer bare [except] prints the
    traceback of anything that left the dispatch, and the connection is closed
    with nothing sent. *)
Definition server_sent (w : world) (request : str) : option bytes :=
  match server_dispatch w request with
  | Ok response => Some response
  | Raise _ => None
  end.

(** ** A sample host *)

(** A small stand-in for the default table of [mimetypes]: the type of a name
    by its suffix. *)
Definition sample_mime_db (path : str) : option string :=
  if PySeq.endswith N.eqb path (u ".html") then Some "text/html"%string
  else if PySeq.endswith N.eqb path (u ".png") then Some "image/png"%string
  else if PySeq.endswith N.eqb path (u ".txt") then Some "text/plain"%string
  else None.

(** An association list as a file system. *)
Fixpoint fs_of (files : list (str * node)) (loc : str) : node :=
  match files with
  | [] => Missing
  | (l, n) :: rest => if str_eqb l loc then n else fs_of rest loc
  end.

(** What CPython does when started: without a readable script it prints its
    complaint on standard error and exits with status 2; the sample scripts
    print a page, and [fail.py] prints nothing and exits with status 1. *)
Definition sample_python (files : list (str * node)) (loc : str) : CompletedProcess :=
  match fs_of files loc with
  | Regular _ =>
      if PySeq.endswith N.eqb loc (u "fail.py")
      then {| returncode := 1; stdout := b ""; stderr := b "Traceback" |}
      else {| returncode := 0; stdout := b "<html>ok</html>"; stderr := b "" |}
  | _ => {| returncode := 2; stdout := b "";
            stderr := b "python: can't open file" |}
  end.

Definition sample_listing : list str :=
  [u "a.html"; u "b.png"; u "make.py"; u "notes"; u "fail.py"].

(** The document root is entered under its name with and without the final
    separator, which name the same directory. *)
Definition sample_files : list (str * node) := [
  (u "/srv/webroot", Directory sample_listing);
  (u "/srv/webroot/", Directory sample_listing);
  (u "/srv/webroot/a.html", Regular (b "<h1>hi</h1>"));
  (u "/srv/webroot/b.png", Regular [x89; x50; x4e; x47]);
  (u "/srv/webroot/make.py", Regular (b "print('<html>ok</html>')"));
  (u "/srv/webroot/fail.py", Regular (b "import sys; sys.exit(1)"));
  (u "/srv/webroot/notes", Regular (b "no suffix"))
].

Definition sample_world : world := {|
  cwd := u "/srv";
  fs := fs_of sample_files;
  python := Some (sample_python sample_files);
  mime_db := sample_mime_db
|}.

(** The same host without a [python] on the search path. *)
Definition sample_world_no_python : world := {|
  cwd := u "/srv";
  fs := fs_of sample_files;
  python := None;
  mime_db := sample_mime_db
|}.

Definition request_of (line : string) : str := u line ++ CRLF ++ CRLF.

(** A host whose document root holds a file named by the single byte 0xFF:
    [os.listdir] reports the name as the surrogate code point U+DCFF. *)
Definition odd_files : list (str * node) := [
  (u "/srv/webroot", Directory [u "a.html"; [56575%N]]);
  (u "/srv/webroot/", Directory [u "a.html"; [56575%N]]);
  (u "/srv/webroot/a.html", Regular (b "<h1>hi</h1>"))
].

Definition odd_world : world := {|
  cwd := u "/srv";
  fs := fs_of odd_files;
  python := Some (sample_python odd_files);
  mime_db := sample_mime_db
|}.

(** ** Predicates of the statements *)

(** Code points the strict UTF-8 encoder accepts: all but the surrogates. *)
Definition encodable_char (c : N) : bool :=
  ((c <? 55296) || ((57343 <? c) && (c <? 1114112)))%N.

Definition encodable (s : str) : bool := forallb encodable_char s.

(** Literals spelled in ASCII only. *)
Definition is_ascii (s : string) : bool :=
  forallb (fun x => (Byte.to_N x <? 128)%N) (list_byte_of_string s).

(** ** [bytes.decode("utf8")] *)

(** A continuation byte, [10xxxxxx]. *)
Definition is_cont (x : byte) : bool :=
  ((128 <=? Byte.to_N x) && (Byte.to_N x <? 192))%N.

(** The bits read so far, followed by the six payload bits of [x]. *)
Definition utf8_acc (acc : N) (x : byte) : N :=
  N.lor (N.shiftl acc 6) (N.land (Byte.to_N x) 63).

(** The strict decoder: [None] stands for [UnicodeDecodeError], raised for a
    stray continuation byte, a truncated sequence, an overlong form, a
    surrogate and anything above U+10FFFF. *)
Fixpoint decode_utf8 (data : bytes) : option str :=
  match data with
  | [] => Some []
  | x0 :: rest =>
      let n0 := Byte.to_N x0 in
      if (n0 <? 128)%N then option_map (cons n0) (decode_utf8 rest)
      else if (n0 <? 192)%N then None
      else if (n0 <? 224)%N then
        match rest with
        | x1 :: rest1 =>
            let c := utf8_acc (N.land n0 31) x1 in
            if is_cont x1 && (128 <=? c)%N
            then option_map (cons c) (decode_utf8 rest1)
            else None
        | _ => None
        end
      else if (n0 <? 240)%N then
        match rest with
        | x1 :: x2 :: rest2 =>
            let c := utf8_acc (utf8_acc (N.land n0 15) x1) x2 in
            if is_cont x1 && is_cont x2 && (2048 <=? c)%N
               && negb ((55296 <=? c) && (c <=? 57343))%N
            then option_map (cons c) (decode_utf8 rest2)
            else None
        | _ => None
        end
      else if (n0 <? 248)%N then
        match rest with
        | x1 :: x2 :: x3 :: rest3 =>
            let c := utf8_acc (utf8_acc (utf8_acc (N.land n0 7) x1) x2) x3 in
            if is_cont x1 && is_cont x2 && is_cont x3
               && (65536 <=? c)%N && (c <? 1114112)%N
            then option_map (cons c) (decode_utf8 rest3)
            else None
        | _ => None
        end
      else None
  end.

(** ** Receiving a request, and the loop over connections *)

(** A connection as the server reads it: what the [n]-th call of
    [conn.recv(1024)] returns.  After the peer has closed, every call returns
    the empty [bytes]. *)
Definition connection : Type := nat -> bytes.

(** ['\r\n\r\n'] *)
Definition blank_line : str := CRLF ++ CRLF.

(** Where the receiving loop stands after a number of turns. *)
Inductive received : Type :=
| Request (request : str)
| DecodeFailed
| Pending.

(** The [while True] of lines 157 to 162, from the [n]-th call of [recv] on
    and with the text gathered so far; [fuel] bounds the number of turns, and
    [Pending] says that the loop has not left by then. *)
Fixpoint recv_loop (conn : connection) (fuel n : nat) (request : str) : received :=
  match fuel with
  | O => Pending
  | S fuel' =>
      match decode_utf8 (conn n) with
      | None => DecodeFailed
      | Some text =>
          let request := request ++ text in
          if PySeq.contains N.eqb request blank_line then Request request
          else recv_loop conn fuel' (S n) request
      end
  end.

(** What becomes of one accepted connection. *)
Inductive outcome : Type :=
| Sent (response : bytes)
| Dropped
| Receiving.

(** The body of the accept loop for one connection: receive, dispatch, send;
    any exception ends in the bare [except], which prints the traceback, and
    the connection is closed without a response. *)
Definition server_connection (w : world) (conn : connection) (fuel : nat) : outcome :=
  match recv_loop conn fuel 0 [] with
  | Pending => Receiving
  | DecodeFailed => Dropped
  | Request request =>
      match server_sent w request with
      | Some response => Sent response
      | None => Dropped
      end
  end.


(** The text gathered after [k] successful turns, starting from the [n]-th
    call with [request] in hand. *)
Fixpoint gathered (conn : connection) (k n : nat) (request : str) : option str :=
  match k with
  | O => Some request
  | S k' =>
      match decode_utf8 (conn n) with
      | None => None
      | Some text => gathered conn k' (S n) (request ++ text)
      end
  end.

(** A connection that delivers the given chunks and is closed afterwards. *)
Definition chunks_then_closed (chunks : list bytes) : connection :=
  fun n => nth n chunks [].

(** A host with a file outside the document root. *)
Definition outside_files : list (str * node) := [
  (u "/srv/webroot", Directory []);
  (u "/srv/webroot/", Directory []);
  (u "/etc/notes.txt", Regular (b "not for the web"))
].

Definition outside_world : world := {|
  cwd := u "/srv";
  fs := fs_of outside_files;
  python := None;
  mime_db := sample_mime_db
|}.

(** The first line of a response. *)
Definition status_line (response : bytes) : bytes :=
  hd [] (PySeq.split Byte.eqb bCRLF response).

(** * Properties *)

(** ** Sequences *)

Module PySeqFacts.
Import PySeq.
Section Facts.
Context {A : Type}.
Variable eqb : A -> A -> bool.
Hypothesis eqb_eq : forall x y, eqb x y = true <-> x = y.

Lemma split_unfold (c : A) (sep' s : list A) :
  split eqb (c :: sep') s =
  match split_once eqb (c :: sep') s with
  | None => [s]
  | Some (a, rest) => a :: split eqb (c :: sep') rest
  end.
Proof.
  rewrite split_equation_2. unfold inspect.
  assert (G : forall o (E : o = split_once eqb (c :: sep') s),
             split_unfold_clause_2 eqb c sep' s (exist _ o E) =
             match o with
             | None => [s]
             | Some (a, rest) => a :: split eqb (c :: sep') rest
             end).
  { intros [[a rest]|] E; reflexivity. }
  apply G.
Qed.

Lemma eqb_refl x : eqb x x = true.
Proof. now apply eqb_eq. Qed.

Lemma eqb_neq x y : x <> y -> eqb x y = false.
Proof.
  intros N. destruct (eqb x y) eqn:E; [|reflexivity].
  apply eqb_eq in E. contradiction.
Qed.

Lemma seq_eqb_eq s t : seq_eqb eqb s t = true <-> s = t.
Proof.
  revert t. induction s as [|x s IH]; intros [|y t]; cbn; try easy.
  rewrite andb_true_iff, eqb_eq, IH. split.
  - now intros [-> ->].
  - now intros [= -> ->].
Qed.

Lemma startswith_app p r : startswith eqb (p ++ r) p = true.
Proof.
  induction p as [|x p IH]; cbn; [reflexivity|].
  now rewrite eqb_refl, IH.
Qed.

Lemma skipn_length_app (p r : list A) : skipn (length p) (p ++ r) = r.
Proof. induction p as [|x p IH]; cbn; auto. Qed.

Lemma split_nonempty sep s : split eqb sep s <> [].
Proof.
  destruct sep as [|c sep'].
  - now rewrite split_equation_1.
  - rewrite split_unfold.
    now destruct (split_once eqb (c :: sep') s) as [[a rest]|].
Qed.

Lemma contains_cons s p x :
  contains eqb (x :: s) p = false -> contains eqb s p = false.
Proof. cbn. now intros [_ H]%orb_false_iff. Qed.

Lemma split_once_absent sep s :
  contains eqb s sep = false -> split_once eqb sep s = None.
Proof.
  induction s as [|x s IH]; cbn.
  - now intros [-> _]%orb_false_iff.
  - intros [-> H]%orb_false_iff. now rewrite IH.
Qed.

Lemma split_absent c sep' s :
  contains eqb s (c :: sep') = false -> split eqb (c :: sep') s = [s].
Proof. intros H. now rewrite split_unfold, split_once_absent. Qed.

(** No occurrence of a separator that begins with two different elements
    can start inside a piece that does not contain these two in a row. *)
Lemma split_once_at c1 c2 tl x rest :
  c1 <> c2 ->
  contains eqb x [c1; c2] = false ->
  split_once eqb (c1 :: c2 :: tl) (x ++ (c1 :: c2 :: tl) ++ rest)
  = Some (x, rest).
Proof.
  intros Hne. induction x as [|y x IH]; intros Hx.
  - change ([] ++ ?l) with l.
    change ((c1 :: c2 :: tl) ++ rest) with (c1 :: ((c2 :: tl) ++ rest)).
    cbn [split_once].
    change (c1 :: ((c2 :: tl) ++ rest)) with ((c1 :: c2 :: tl) ++ rest).
    now rewrite startswith_app, skipn_length_app.
  - change ((y :: x) ++ ?l) with (y :: (x ++ l)).
    cbn [split_once].
    assert (E : startswith eqb (y :: x ++ (c1 :: c2 :: tl) ++ rest)
                  (c1 :: c2 :: tl) = false).
    { cbn [startswith]. destruct (eqb c1 y) eqn:E1; [|reflexivity].
      apply eqb_eq in E1. subst y. cbn [andb].
      destruct x as [|z x].
      - cbn. now rewrite (eqb_neq (not_eq_sym Hne)).
      - cbn in Hx. rewrite eqb_refl in Hx. cbn in Hx.
        apply orb_false_iff in Hx as [Hx _].
        rewrite andb_true_r in Hx. cbn. now rewrite Hx. }
    rewrite E, IH; [reflexivity|]. eapply contains_cons, Hx.
Qed.

Lemma split_piece c1 c2 tl x rest :
  c1 <> c2 ->
  contains eqb x [c1; c2] = false ->
  split eqb (c1 :: c2 :: tl) (x ++ (c1 :: c2 :: tl) ++ rest)
  = x :: split eqb (c1 :: c2 :: tl) rest.
Proof. intros Hne Hx. now rewrite split_unfold, split_once_at. Qed.

(** The same for a separator of one element. *)
Lemma split_once_at1 c x rest :
  contains eqb x [c] = false ->
  split_once eqb [c] (x ++ [c] ++ rest) = Some (x, rest).
Proof.
  induction x as [|y x IH]; intros Hx.
  - cbn. now rewrite eqb_refl.
  - cbn in Hx. apply orb_false_iff in Hx as [Hy Hx].
    rewrite andb_true_r in Hy.
    cbn. rewrite Hy. cbn. cbn in IH. now rewrite IH.
Qed.

Lemma split_piece1 c x rest :
  contains eqb x [c] = false ->
  split eqb [c] (x ++ [c] ++ rest) = x :: split eqb [c] rest.
Proof. intros Hx. now rewrite split_unfold, split_once_at1. Qed.

(** Splitting a joined list gives the list back, when no piece contains the
    separator; the empty list is the exception, it joins to the empty
    sequence, which splits to one empty piece. *)
Lemma split_join c1 c2 parts :
  c1 <> c2 ->
  parts <> [] ->
  Forall (fun x => contains eqb x [c1; c2] = false) parts ->
  split eqb [c1; c2] (join [c1; c2] parts) = parts.
Proof.
  intros Hne Hnil Hall. induction Hall as [|x rest Hx Hrest IH]; [easy|].
  destruct rest as [|y rest].
  - cbn [join]. now apply split_absent.
  - change (join [c1; c2] (x :: y :: rest))
      with (x ++ [c1; c2] ++ join [c1; c2] (y :: rest)).
    rewrite split_piece by assumption. f_equal. now apply IH.
Qed.

Lemma startswith_length s p :
  startswith eqb s p = true -> length p <= length s.
Proof.
  revert s. induction p as [|x p IH]; intros [|y s]; cbn; try easy; try lia.
  intros [_ H]%andb_true_iff. apply IH in H. lia.
Qed.

(** Where the separator occurs, the cut exists and its first piece is
    shorter than the whole. *)
Lemma split_once_present sep s :
  sep <> [] ->
  contains eqb s sep = true ->
  exists a r, split_once eqb sep s = Some (a, r) /\ length a < length s.
Proof.
  intros Hsep. induction s as [|y s IH]; cbn.
  - rewrite orb_false_r. intros H%startswith_length.
    destruct sep; [congruence | cbn in H; lia].
  - destruct (startswith eqb (y :: s) sep) eqn:E.
    + intros _. eexists _, _. split; [reflexivity | cbn; lia].
    + cbn. intros H. destruct (IH H) as (a & r & -> & Hlen).
      eexists _, _. split; [reflexivity | cbn; lia].
Qed.

Lemma split_present c sep' s :
  contains eqb s (c :: sep') = true -> split eqb (c :: sep') s <> [s].
Proof.
  intros H. rewrite split_unfold.
  destruct (split_once_present (sep := c :: sep') s) as (a & r & -> & Hlen);
    [discriminate | exact H |].
  intros [= Ha _]. subst a. lia.
Qed.

Lemma contains_app_r x y p :
  contains eqb y p = true -> contains eqb (x ++ y) p = true.
Proof.
  intros H. induction x as [|z x IH]; [exact H|].
  cbn. rewrite IH. apply orb_true_r.
Qed.

End Facts.
End PySeqFacts.

(** ** Code points, bytes and the separators *)

Lemma byte_eqb_eq (x y : byte) : Byte.eqb x y = true <-> x = y.
Proof.
  split; [apply Byte.byte_dec_bl | apply Byte.byte_dec_lb].
Qed.

Lemma str_eqb_eq (s t : str) : str_eqb s t = true <-> s = t.
Proof. apply PySeqFacts.seq_eqb_eq, N.eqb_eq. Qed.

Lemma str_eqb_neq (s t : str) : s <> t -> str_eqb s t = false.
Proof.
  intros Hne. destruct (str_eqb s t) eqn:E; [|reflexivity].
  apply str_eqb_eq in E. contradiction.
Qed.

(** The request line is always there: [split] never returns the empty
    list, so the index [0] cannot raise. *)
Lemma first_line_total (request : str) : exists line, first_line request = Ok line.
Proof.
  unfold first_line.
  destruct (PySeq.split N.eqb CRLF request) as [|line rest] eqn:E.
  - now apply PySeqFacts.split_nonempty in E.
  - now exists line.
Qed.

Lemma request_tokens_total (request : str) :
  exists tokens, request_tokens request = Ok tokens.
Proof.
  unfold request_tokens.
  destruct (first_line_total request) as [line ->]. cbn. eauto.
Qed.

(** [parse_request] by the shape of the token list. *)
Lemma parse_request_three request method path version :
  request_tokens request = Ok [method; path; version] ->
  parse_request request =
  if str_eqb method (u "GET") then Ok path else Raise NotImplementedError.
Proof.
  intros H. unfold parse_request. rewrite H. cbn.
  now destruct (str_eqb method (u "GET")).
Qed.

Lemma parse_request_not_three request tokens :
  request_tokens request = Ok tokens ->
  length tokens <> 3 ->
  parse_request request = Raise ValueError.
Proof.
  intros H Hlen. unfold parse_request. rewrite H. cbn.
  destruct tokens as [|t1 [|t2 [|t3 [|t4 rest]]]]; cbn in *; congruence.
Qed.

(** ** The request parser *)

(** C6.  When the first line of the request splits on single spaces into
    exactly three tokens, [parse_request] raises [NotImplementedError] (the
    unsupported-method condition) for every method token other than the
    string [GET], compared case-sensitively, and for [GET] it returns the
    second token, the path, as it stands. *)
Theorem parse_request_method (request method path version : str) :
  request_tokens request = Ok [method; path; version] ->
  (method <> u "GET" -> parse_request request = Raise NotImplementedError) /\
  (method = u "GET" -> parse_request request = Ok path).
Proof.
  intros H. rewrite (parse_request_three _ H). split.
  - intros Hne. now rewrite str_eqb_neq.
  - intros ->. now replace (str_eqb (u "GET") (u "GET")) with true.
Qed.

Lemma parse_request_method_witness :
  parse_request (request_of "get /index.html HTTP/1.1") = Raise NotImplementedError /\
  parse_request (request_of "POST / HTTP/1.1") = Raise NotImplementedError /\
  parse_request (request_of "GET /images/sample_1.png HTTP/1.1")
  = Ok (u "/images/sample_1.png").
Proof.
  split; [|split].
  - apply (parse_request_method (request_of "get /index.html HTTP/1.1")
             (method := u "get") (path := u "/index.html") (version := u "HTTP/1.1")).
    + vm_compute. reflexivity.
    + discriminate.
  - apply (parse_request_method (request_of "POST / HTTP/1.1")
             (method := u "POST") (path := u "/") (version := u "HTTP/1.1")).
    + vm_compute. reflexivity.
    + discriminate.
  - apply (parse_request_method (request_of "GET /images/sample_1.png HTTP/1.1")
             (method := u "GET") (path := u "/images/sample_1.png")
             (version := u "HTTP/1.1")).
    + vm_compute. reflexivity.
    + reflexivity.
Defined.

(** A sequence without the first element of a separator does not contain
    the separator. *)
Lemma contains_without (c : N) (p x : str) :
  Forall (fun y => y <> c) x -> PySeq.contains N.eqb x (c :: p) = false.
Proof.
  induction 1 as [|y x Hy Hx IH]; [reflexivity|].
  cbn. rewrite IH, orb_false_r.
  replace (c =? y)%N with false; [reflexivity|].
  symmetry. apply N.eqb_neq. congruence.
Qed.

(** A well-formed request line, built rather than assumed: for every path and
    version without space and carriage return, whatever follows the first
    line, the tokens are the three fields and [parse_request] returns the
    path. *)
Lemma parse_request_get_line (path version rest : str) :
  Forall (fun y => y <> 32%N /\ y <> 13%N) path ->
  Forall (fun y => y <> 32%N /\ y <> 13%N) version ->
  let request := (u "GET" ++ SP ++ path ++ SP ++ version) ++ CRLF ++ rest in
  request_tokens request = Ok [u "GET"; path; version] /\
  parse_request request = Ok path.
Proof.
  intros Hp Hv request.
  assert (Hp32 : Forall (fun y => y <> 32%N) path)
    by (eapply Forall_impl; [|exact Hp]; now intros y [H _]).
  assert (Hp13 : Forall (fun y => y <> 13%N) path)
    by (eapply Forall_impl; [|exact Hp]; now intros y [_ H]).
  assert (Hv32 : Forall (fun y => y <> 32%N) version)
    by (eapply Forall_impl; [|exact Hv]; now intros y [H _]).
  assert (Hv13 : Forall (fun y => y <> 13%N) version)
    by (eapply Forall_impl; [|exact Hv]; now intros y [_ H]).
  assert (Htok : request_tokens request = Ok [u "GET"; path; version]).
  { unfold request_tokens, first_line, request.
    change CRLF with [13%N; 10%N].
    rewrite (@PySeqFacts.split_piece _ _ N.eqb_eq); [|discriminate|].
    - cbn [bind]. f_equal. change SP with [32%N].
      rewrite (@PySeqFacts.split_piece1 _ _ N.eqb_eq)
        by (apply contains_without; repeat constructor; discriminate).
      rewrite (@PySeqFacts.split_piece1 _ _ N.eqb_eq)
        by now apply contains_without.
      rewrite PySeqFacts.split_absent by now apply contains_without.
      reflexivity.
    - apply contains_without. rewrite !Forall_app. repeat split; trivial;
        repeat constructor; discriminate. }
  split; [exact Htok|].
  now rewrite (parse_request_three _ Htok).
Qed.

(** ** The dispatch *)

Lemma server_dispatch_not_three w request tokens :
  request_tokens request = Ok tokens ->
  length tokens <> 3 ->
  server_dispatch w request = Raise ValueError.
Proof.
  intros H Hlen. unfold server_dispatch.
  now rewrite (parse_request_not_three _ H Hlen).
Qed.

(** C7.  A request whose first line does not split on single spaces into
    exactly three tokens makes the tuple assignment of [parse_request] raise
    [ValueError], which is neither of the two exceptions the dispatch
    recovers from: it leaves the dispatch as it is and nothing is sent, so
    no 405 and no 404.  With exactly three tokens the assignment does not
    raise: [parse_request] returns a path or raises [NotImplementedError]. *)
Theorem parse_request_token_count (w : world) (request : str) (tokens : list str) :
  request_tokens request = Ok tokens ->
  (length tokens <> 3 ->
     parse_request request = Raise ValueError /\
     ValueError <> NotImplementedError /\ ValueError <> NameError /\
     server_dispatch w request = Raise ValueError /\
     server_sent w request = None) /\
  (length tokens = 3 ->
     parse_request request <> Raise ValueError /\
     ((exists path, parse_request request = Ok path) \/
      parse_request request = Raise NotImplementedError)).
Proof.
  intros H. split.
  - intros Hlen. repeat split; try discriminate.
    + exact (parse_request_not_three _ H Hlen).
    + exact (server_dispatch_not_three w _ H Hlen).
    + unfold server_sent. now rewrite (server_dispatch_not_three w _ H Hlen).
  - intros Hlen.
    destruct tokens as [|m [|p [|v [|t4 rest]]]]; try discriminate Hlen.
    rewrite (parse_request_three _ H).
    destruct (str_eqb m (u "GET")).
    + split; [discriminate | left; now exists p].
    + split; [discriminate | now right].
Qed.

Lemma parse_request_token_count_witness :
  (parse_request (request_of "GET  /index.html HTTP/1.1") = Raise ValueError /\
   server_sent sample_world (request_of "GET  /index.html HTTP/1.1") = None) /\
  (parse_request (request_of "GET") = Raise ValueError /\
   server_sent sample_world (request_of "GET") = None) /\
  parse_request (request_of "GET /a.html HTTP/1.1") <> Raise ValueError.
Proof.
  split; [|split].
  - destruct (parse_request_token_count sample_world
                (request_of "GET  /index.html HTTP/1.1")
                (tokens := [u "GET"; u ""; u "/index.html"; u "HTTP/1.1"]))
      as [Hbad _].
    + vm_compute. reflexivity.
    + destruct Hbad as (Hp & _ & _ & _ & Hs); [discriminate|]. now split.
  - destruct (parse_request_token_count sample_world (request_of "GET")
                (tokens := [u "GET"])) as [Hbad _].
    + vm_compute. reflexivity.
    + destruct Hbad as (Hp & _ & _ & _ & Hs); [discriminate|]. now split.
  - destruct (parse_request_token_count sample_world
                (request_of "GET /a.html HTTP/1.1")
                (tokens := [u "GET"; u "/a.html"; u "HTTP/1.1"])) as [_ Hgood].
    + vm_compute. reflexivity.
    + exact (proj1 (Hgood eq_refl)).
Defined.

(** The only exception of the encoder. *)
Lemma utf8_encode_char_raises c e :
  utf8_encode_char c = Raise e -> e = UnicodeEncodeError.
Proof.
  unfold utf8_encode_char.
  repeat match goal with
         | |- context [if ?c then _ else _] => destruct c
         end; congruence.
Qed.

Lemma encode_utf8_raises s e :
  encode_utf8 s = Raise e -> e = UnicodeEncodeError.
Proof.
  induction s as [|c s IH]; cbn; [discriminate|].
  destruct (utf8_encode_char c) as [x|e1] eqn:E1; cbn.
  - destruct (encode_utf8 s) as [y|e2]; cbn; [discriminate|].
    intros [= <-]. now apply IH.
  - intros [= <-]. now apply utf8_encode_char_raises in E1.
Qed.

(** [response_path] raises nothing the dispatch would take for an unsupported
    method, and [parse_request] nothing it would take for a missing
    resource. *)
Lemma response_path_not_NotImplementedError w path :
  response_path w path <> Raise NotImplementedError.
Proof.
  unfold response_path, try_except, subprocess_run, os_listdir, open_rb_read,
    os_path_isdir.
  destruct (PySeq.endswith N.eqb path (u ".py")).
  - destruct (python w); cbn; discriminate.
  - destruct (fs w (location w path)) as [|names|content]; cbn.
    + discriminate.
    + destruct (encode_utf8 (PySeq.join CRLF names)) as [x|e] eqn:E; cbn;
        [discriminate|].
      apply encode_utf8_raises in E. subst e. discriminate.
    + destruct (guess_type w path) as [t|]; cbn; [|discriminate].
      destruct (encode_utf8 t) as [x|e] eqn:E; cbn; [discriminate|].
      apply encode_utf8_raises in E. subst e. discriminate.
Qed.

Lemma parse_request_not_NameError request :
  parse_request request <> Raise NameError.
Proof.
  unfold parse_request.
  destruct (request_tokens_total request) as [tokens ->]. cbn.
  destruct tokens as [|m [|p [|v [|t4 rest]]]]; try discriminate.
  destruct (negb (str_eqb m (u "GET"))); discriminate.
Qed.

(** The dispatch, by the outcome of its two stages. *)
Lemma server_dispatch_unfold w request :
  server_dispatch w request =
  match parse_request request with
  | Raise NotImplementedError => Ok response_method_not_allowed
  | Raise NameError => Ok response_not_found
  | Raise e => Raise e
  | Ok path =>
      match response_path w path with
      | Ok (content, mimetype) => Ok (response_ok content mimetype)
      | Raise NotImplementedError => Ok response_method_not_allowed
      | Raise NameError => Ok response_not_found
      | Raise e => Raise e
      end
  end.
Proof.
  unfold server_dispatch, try_except, bind.
  destruct (parse_request request) as [path|e]; [|reflexivity].
  now destruct (response_path w path) as [[content mimetype]|e].
Qed.

(** C1.  For a request whose first line has exactly three tokens, the
    dispatch answers [response_method_not_allowed] when [parse_request]
    raises [NotImplementedError], [response_not_found] when [response_path]
    raises [NameError], and [response_ok] of the content and mimetype that
    [response_path] returned when it returns; every response the dispatch
    produces arises in one of these three ways. *)
Theorem server_dispatch_cases (w : world) (request method path version : str) :
  request_tokens request = Ok [method; path; version] ->
  (parse_request request = Raise NotImplementedError ->
     server_dispatch w request = Ok response_method_not_allowed) /\
  (forall p, parse_request request = Ok p ->
     response_path w p = Raise NameError ->
     server_dispatch w request = Ok response_not_found) /\
  (forall p content mimetype, parse_request request = Ok p ->
     response_path w p = Ok (content, mimetype) ->
     server_dispatch w request = Ok (response_ok content mimetype)) /\
  (forall response, server_dispatch w request = Ok response ->
     (parse_request request = Raise NotImplementedError /\
      response = response_method_not_allowed) \/
     (exists p, parse_request request = Ok p /\
        response_path w p = Raise NameError /\
        response = response_not_found) \/
     (exists p content mimetype, parse_request request = Ok p /\
        response_path w p = Ok (content, mimetype) /\
        response = response_ok content mimetype)).
Proof.
  intros Htok. rewrite server_dispatch_unfold.
  pose proof (parse_request_not_NameError request) as HnoNE.
  repeat split.
  - now intros ->.
  - intros p -> Hrp. now rewrite Hrp.
  - intros p content mimetype -> Hrp. now rewrite Hrp.
  - intros response.
    destruct (parse_request request) as [p|e] eqn:Hp.
    + pose proof (@response_path_not_NotImplementedError w p) as HnoNIE.
      destruct (response_path w p) as [[content mimetype]|e] eqn:Hrp.
      * intros [= <-]. right. right. now exists p, content, mimetype.
      * destruct e; try discriminate; try congruence.
        intros [= <-]. right. left. now exists p.
    + destruct e; try discriminate; try congruence.
      intros [= <-]. now left.
Qed.

Lemma server_dispatch_cases_witness :
  server_dispatch sample_world (request_of "POST / HTTP/1.1")
  = Ok response_method_not_allowed /\
  server_dispatch sample_world (request_of "GET /missing.txt HTTP/1.1")
  = Ok response_not_found /\
  server_dispatch sample_world (request_of "GET /a.html HTTP/1.1")
  = Ok (response_ok (b "<h1>hi</h1>") (b "text/html")).
Proof.
  split; [|split].
  - refine (proj1 (server_dispatch_cases sample_world
                     (request_of "POST / HTTP/1.1")
                     (method := u "POST") (path := u "/")
                     (version := u "HTTP/1.1") _) _);
      vm_compute; reflexivity.
  - refine (proj1 (proj2 (server_dispatch_cases sample_world
                     (request_of "GET /missing.txt HTTP/1.1")
                     (method := u "GET") (path := u "/missing.txt")
                     (version := u "HTTP/1.1") _)) (u "/missing.txt") _ _);
      vm_compute; reflexivity.
  - refine (proj1 (proj2 (proj2 (server_dispatch_cases sample_world
                     (request_of "GET /a.html HTTP/1.1")
                     (method := u "GET") (path := u "/a.html")
                     (version := u "HTTP/1.1") _))) (u "/a.html") _ _ _ _);
      vm_compute; reflexivity.
Defined.

(** The end-to-end cases of the sample host, as the peer sees them. *)
Example server_sent_missing :
  server_sent sample_world (request_of "GET /missing.txt HTTP/1.1")
  = Some (b ("HTTP/1.1 404 Not Found" ++ crlf ++ crlf ++
             "Could not find resource on this server.")).
Proof. vm_compute. reflexivity. Qed.

Example server_sent_post :
  server_sent sample_world (request_of "POST / HTTP/1.1")
  = Some (b ("HTTP/1.1 405 Method Not Allowed" ++ crlf ++ crlf ++
             "You can't do that on this server!")).
Proof. vm_compute. reflexivity. Qed.

Example server_sent_root :
  server_sent sample_world (request_of "GET / HTTP/1.1")
  = Some (b ("HTTP/1.1 200 OK" ++ crlf ++ "Content-Type: text/plain" ++ crlf ++
             crlf ++ "a.html" ++ crlf ++ "b.png" ++ crlf ++ "make.py" ++ crlf ++
             "notes" ++ crlf ++ "fail.py")).
Proof. vm_compute. reflexivity. Qed.

(** ** The response builders *)

(** The output of [response_ok], written out: the four joined parts with no
    separator after the last one. *)
Lemma response_ok_format (body mimetype : bytes) :
  response_ok body mimetype =
  b "HTTP/1.1 200 OK" ++ bCRLF ++ (b "Content-Type: " ++ mimetype) ++ bCRLF ++
  bCRLF ++ body.
Proof. reflexivity. Qed.

Lemma byte_CR_LF : "013"%byte <> "010"%byte.
Proof. discriminate. Qed.

(** C5, as stated, fails for a mimetype that itself contains a blank line:
    the first CRLF CRLF of the output then lies inside the header, and what
    follows it is not the body. *)
Lemma response_ok_roundtrip_broken :
  PySeq.split_once Byte.eqb (bCRLF ++ bCRLF)
    (response_ok (b "hello") (b ("text/plain" ++ crlf ++ crlf ++ "evil")))
  = Some (b ("HTTP/1.1 200 OK" ++ crlf ++ "Content-Type: text/plain"),
          b ("evil" ++ crlf ++ crlf ++ "hello")) /\
  b ("evil" ++ crlf ++ crlf ++ "hello") <> b "hello".
Proof. split; [vm_compute; reflexivity | discriminate]. Qed.

(** C5, amended.  For every body, and every mimetype in which no CRLF occurs,
    [response_ok] is the status line [HTTP/1.1 200 OK], the header
    [Content-Type: <mimetype>], an empty line and the body as it is, joined by
    CRLF, with nothing after the body; cutting the output at its first
    CRLF CRLF gives back the two header lines (CRLF between them) and the very
    body. *)
Theorem response_ok_roundtrip (body mimetype : bytes) :
  PySeq.contains Byte.eqb mimetype bCRLF = false ->
  response_ok body mimetype =
    b "HTTP/1.1 200 OK" ++ bCRLF ++ (b "Content-Type: " ++ mimetype) ++ bCRLF ++
    bCRLF ++ body /\
  PySeq.split_once Byte.eqb (bCRLF ++ bCRLF) (response_ok body mimetype) =
    Some (b "HTTP/1.1 200 OK" ++ bCRLF ++ b "Content-Type: " ++ mimetype, body) /\
  PySeq.split Byte.eqb bCRLF
    (b "HTTP/1.1 200 OK" ++ bCRLF ++ b "Content-Type: " ++ mimetype) =
    [b "HTTP/1.1 200 OK"; b "Content-Type: " ++ mimetype].
Proof.
  intros Hm. split; [reflexivity|]. split.
  - rewrite response_ok_format.
    pose proof (@PySeqFacts.split_once_at _ _ byte_eqb_eq _ _
                  ["013"%byte; "010"%byte] mimetype body byte_CR_LF Hm) as Hcut.
    unfold bCRLF, crlf, CR, LF, b. cbn.
    cbn in Hcut. rewrite Hcut. reflexivity.
  - change (b "HTTP/1.1 200 OK" ++ bCRLF ++ b "Content-Type: " ++ mimetype)
      with (b "HTTP/1.1 200 OK" ++ ["013"%byte; "010"%byte] ++
            (b "Content-Type: " ++ mimetype)).
    change bCRLF with ["013"%byte; "010"%byte].
    rewrite (@PySeqFacts.split_piece _ _ byte_eqb_eq); [|discriminate|reflexivity].
    f_equal. apply PySeqFacts.split_absent.
    unfold b. cbn. exact Hm.
Qed.

(** The condition on the mimetype cannot be dropped: with a CRLF inside it,
    the header no longer splits into the two lines. *)
Lemma response_ok_roundtrip_needs (mimetype : bytes) :
  PySeq.contains Byte.eqb mimetype bCRLF = true ->
  PySeq.split Byte.eqb bCRLF
    (b "HTTP/1.1 200 OK" ++ bCRLF ++ b "Content-Type: " ++ mimetype) <>
    [b "HTTP/1.1 200 OK"; b "Content-Type: " ++ mimetype].
Proof.
  intros Hm.
  change (b "HTTP/1.1 200 OK" ++ bCRLF ++ b "Content-Type: " ++ mimetype)
    with (b "HTTP/1.1 200 OK" ++ ["013"%byte; "010"%byte] ++
          (b "Content-Type: " ++ mimetype)).
  change bCRLF with ["013"%byte; "010"%byte] in *.
  rewrite (@PySeqFacts.split_piece _ _ byte_eqb_eq); [|discriminate|reflexivity].
  intros [= H]. revert H. apply PySeqFacts.split_present.
  exact (@PySeqFacts.contains_app_r _ Byte.eqb (b "Content-Type: ") mimetype _ Hm).
Qed.

Lemma response_ok_roundtrip_witness :
  PySeq.split_once Byte.eqb (bCRLF ++ bCRLF)
    (response_ok (b "hello") (b "text/plain"))
  = Some (b "HTTP/1.1 200 OK" ++ bCRLF ++ b "Content-Type: " ++ b "text/plain",
          b "hello").
Proof.
  refine (proj1 (proj2 (response_ok_roundtrip (b "hello") (b "text/plain") _))).
  vm_compute. reflexivity.
Defined.

(** ** The encoder *)

Lemma encodable_char_spec c :
  encodable_char c = true <->
  (c < 55296 \/ (57343 < c /\ c < 1114112))%N.
Proof.
  unfold encodable_char.
  rewrite orb_true_iff, andb_true_iff, !N.ltb_lt. reflexivity.
Qed.

Lemma utf8_encode_char_total c :
  encodable_char c = true -> exists x, utf8_encode_char c = Ok x.
Proof.
  intros H%encodable_char_spec. unfold utf8_encode_char.
  destruct (c <? 128)%N; [eauto|].
  destruct (c <? 2048)%N; [eauto|].
  destruct (c <? 65536)%N eqn:E3.
  - destruct ((55296 <=? c) && (c <=? 57343))%N eqn:Es; [|eauto].
    apply andb_true_iff in Es as [E1%N.leb_le E2%N.leb_le]. lia.
  - destruct (c <? 1114112)%N eqn:E4; [eauto|].
    apply N.ltb_ge in E3, E4. lia.
Qed.

Lemma encode_utf8_total s :
  encodable s = true -> exists y, encode_utf8 s = Ok y.
Proof.
  induction s as [|c s IH]; cbn; [eauto|].
  intros [Hc Hs]%andb_true_iff.
  destruct (utf8_encode_char_total c Hc) as [x ->].
  destruct (IH Hs) as [y ->]. cbn. eauto.
Qed.

Lemma encodable_app s t : encodable (s ++ t) = encodable s && encodable t.
Proof. apply forallb_app. Qed.

Lemma encodable_join names :
  Forall (fun n => encodable n = true) names ->
  encodable (PySeq.join CRLF names) = true.
Proof.
  induction 1 as [|n rest Hn Hrest IH]; [reflexivity|].
  destruct rest as [|n' rest]; [exact Hn|].
  change (PySeq.join CRLF (n :: n' :: rest))
    with (n ++ CRLF ++ PySeq.join CRLF (n' :: rest)).
  rewrite !encodable_app, Hn, IH. reflexivity.
Qed.

Lemma byte_of_to_N x : byte_of_N (Byte.to_N x) = x.
Proof. unfold byte_of_N. now rewrite Byte.of_to_N. Qed.

(** A literal is encodable, and an ASCII literal encodes to its own bytes. *)
Lemma encodable_literal t : encodable (u t) = true.
Proof.
  unfold u, encodable. apply forallb_forall.
  intros c [x [<- _]]%in_map_iff.
  pose proof (Byte.to_N_bounded x) as Hx.
  unfold encodable_char. apply orb_true_iff. left. apply N.ltb_lt. lia.
Qed.

Lemma encode_utf8_ascii t : is_ascii t = true -> encode_utf8 (u t) = Ok (b t).
Proof.
  unfold is_ascii, u, b.
  induction (list_byte_of_string t) as [|x l IH]; cbn; [reflexivity|].
  intros [Hx Hl]%andb_true_iff.
  unfold utf8_encode_char. rewrite Hx, byte_of_to_N. cbn.
  now rewrite (IH Hl).
Qed.

(** ** The path resolver, branch by branch *)

Lemma response_path_script w path :
  PySeq.endswith N.eqb path (u ".py") = true ->
  response_path w path =
  match python w with
  | Some run => Ok (stdout (run (location w path)), b "text/html")
  | None => Raise NameError
  end.
Proof.
  intros E. unfold response_path, subprocess_run. rewrite E.
  now destruct (python w).
Qed.

Lemma response_path_directory w path names :
  PySeq.endswith N.eqb path (u ".py") = false ->
  fs w (location w path) = Directory names ->
  response_path w path =
  match encode_utf8 (PySeq.join CRLF names) with
  | Ok content => Ok (content, b "text/plain")
  | Raise e => Raise e
  end.
Proof.
  intros E Hfs. unfold response_path, os_path_isdir, os_listdir.
  rewrite E, Hfs. cbn.
  destruct (encode_utf8 (PySeq.join CRLF names)) as [content|e] eqn:Henc;
    [reflexivity|].
  now rewrite (encode_utf8_raises _ Henc).
Qed.

Lemma response_path_regular w path content :
  PySeq.endswith N.eqb path (u ".py") = false ->
  fs w (location w path) = Regular content ->
  response_path w path =
  match mime_db w path with
  | None => Raise AttributeError
  | Some t =>
      match encode_utf8 (u t) with
      | Ok mimetype => Ok (content, mimetype)
      | Raise e => Raise e
      end
  end.
Proof.
  intros E Hfs. unfold response_path, os_path_isdir, open_rb_read, guess_type.
  rewrite E, Hfs. cbn.
  destruct (mime_db w path) as [t|]; cbn; [|reflexivity].
  destruct (encode_utf8 (u t)) as [mimetype|e] eqn:Henc; [reflexivity|].
  now rewrite (encode_utf8_raises _ Henc).
Qed.


(** C2.  The claim fails on the script branch: for a path ending in [.py]
    with nothing at its location, the launched interpreter exits with
    status 2 and an empty standard output, [subprocess.run] raises nothing,
    and [response_path] returns the empty body with [text/html]; the
    dispatch answers 200.  The docstring of [response_path] asks for an
    exception whenever the path does not map to a real location. *)
Theorem response_path_missing_script_served :
  PySeq.endswith N.eqb (u "/missing.py") (u ".py") = true /\
  fs sample_world (location sample_world (u "/missing.py")) = Missing /\
  response_path sample_world (u "/missing.py") = Ok (b "", b "text/html") /\
  server_dispatch sample_world (request_of "GET /missing.py HTTP/1.1")
  = Ok (response_ok (b "") (b "text/html")).
Proof. repeat split; vm_compute; reflexivity. Qed.

(** C3, as stated, fails both ways on the sample host: where [python] is
    not on the search path, the existing script [make.py] is answered with
    [NameError] and no output is returned; where it is, the missing script
    [missing.py] raises nothing. *)
Lemma response_path_script_counterexample :
  (PySeq.endswith N.eqb (u "/make.py") (u ".py") = true /\
   fs sample_world_no_python (location sample_world_no_python (u "/make.py"))
   = Regular (b "print('<html>ok</html>')") /\
   response_path sample_world_no_python (u "/make.py") = Raise NameError) /\
  (PySeq.endswith N.eqb (u "/missing.py") (u ".py") = true /\
   fs sample_world (location sample_world (u "/missing.py")) = Missing /\
   response_path sample_world (u "/missing.py") <> Raise NameError).
Proof.
  split; repeat split; try (vm_compute; reflexivity).
  vm_compute. discriminate.
Qed.

(** C3, amended.  For every path ending in [.py] whose script file exists:
    when the [python] executable can be launched, [response_path] returns
    the captured standard output of the run (possibly empty) as the body,
    with mimetype [text/html], whatever the exit status, so a failing script
    is never a [NameError]; it raises [NameError] exactly when the [python]
    executable itself is not found. *)
Theorem response_path_script_output (w : world) (path : str) (source : bytes) :
  PySeq.endswith N.eqb path (u ".py") = true ->
  fs w (location w path) = Regular source ->
  (forall run, python w = Some run ->
     response_path w path = Ok (stdout (run (location w path)), b "text/html") /\
     response_path w path <> Raise NameError) /\
  (response_path w path = Raise NameError <-> python w = None).
Proof.
  intros E _. rewrite (response_path_script w _ E). split.
  - intros run ->. split; [reflexivity | discriminate].
  - destruct (python w) as [run|]; split; intros H; try reflexivity;
      discriminate.
Qed.

Lemma response_path_script_output_witness :
  response_path sample_world (u "/fail.py") = Ok (b "", b "text/html") /\
  returncode (sample_python sample_files (location sample_world (u "/fail.py")))
  = 1%Z /\
  response_path sample_world (u "/make.py")
  = Ok (b "<html>ok</html>", b "text/html").
Proof.
  split; [|split].
  - refine (proj1 (proj1 (response_path_script_output sample_world
                            (u "/fail.py")
                            (source := b "import sys; sys.exit(1)") _ _)
                     (sample_python sample_files) eq_refl));
      vm_compute; reflexivity.
  - vm_compute. reflexivity.
  - refine (proj1 (proj1 (response_path_script_output sample_world
                            (u "/make.py")
                            (source := b "print('<html>ok</html>')") _ _)
                     (sample_python sample_files) eq_refl));
      vm_compute; reflexivity.
Defined.

(** C4.  The claim fails on the code: for an existing regular file whose
    name the [mimetypes] table does not know, [guess_type] gives [None] and
    the call of [encode] on it raises [AttributeError]; that is not the
    [NameError] of a missing resource, the dispatch does not recover from it,
    and nothing is sent. *)
Theorem response_path_unknown_type_raises :
  PySeq.endswith N.eqb (u "/notes") (u ".py") = false /\
  fs sample_world (location sample_world (u "/notes")) = Regular (b "no suffix") /\
  mime_db sample_world (u "/notes") = None /\
  response_path sample_world (u "/notes") = Raise AttributeError /\
  server_dispatch sample_world (request_of "GET /notes HTTP/1.1")
  = Raise AttributeError /\
  server_sent sample_world (request_of "GET /notes HTTP/1.1") = None.
Proof. repeat split; vm_compute; reflexivity. Qed.

(** The same for every host and every such file. *)
Lemma response_path_unknown_type w path content :
  PySeq.endswith N.eqb path (u ".py") = false ->
  fs w (location w path) = Regular content ->
  mime_db w path = None ->
  response_path w path = Raise AttributeError.
Proof.
  intros E Hfs Hdb. now rewrite (response_path_regular w _ E Hfs), Hdb.
Qed.

(** C8, as stated, fails where a file name is not valid UTF-8: [os.listdir]
    reports it with a surrogate code point, and the [encode] of the listing
    raises [UnicodeEncodeError], which leaves [response_path] as it is. *)
Lemma response_path_listing_counterexample :
  PySeq.endswith N.eqb (u "/") (u ".py") = false /\
  fs odd_world (location odd_world (u "/"))
  = Directory [u "a.html"; [56575%N]] /\
  response_path odd_world (u "/") = Raise UnicodeEncodeError.
Proof. repeat split; vm_compute; reflexivity. Qed.

(** C8, amended.  For every path that does not end in [.py] and whose
    location is an existing directory with entry names that UTF-8 can encode
    (no surrogate code points), [response_path] returns the UTF-8 encoding of
    the entry names joined with CRLF, with mimetype [text/plain].  The names in
    that text are the entries of the directory, each once, in the order
    [os.listdir] reports them: the text of an empty directory is empty, and
    otherwise, when no name contains a CRLF, splitting the text on CRLF gives
    back the list of entries. *)
Theorem response_path_directory_listing (w : world) (path : str) (names : list str) :
  PySeq.endswith N.eqb path (u ".py") = false ->
  fs w (location w path) = Directory names ->
  Forall (fun n => encodable n = true) names ->
  exists body,
    encode_utf8 (PySeq.join CRLF names) = Ok body /\
    response_path w path = Ok (body, b "text/plain") /\
    (names = [] -> body = []) /\
    (names <> [] ->
     Forall (fun n => PySeq.contains N.eqb n CRLF = false) names ->
     PySeq.split N.eqb CRLF (PySeq.join CRLF names) = names).
Proof.
  intros E Hfs Henc.
  destruct (encode_utf8_total _ (encodable_join Henc)) as [body Hbody].
  exists body. split; [exact Hbody|]. split; [|split].
  - now rewrite (response_path_directory w _ E Hfs), Hbody.
  - intros ->. cbn in Hbody. congruence.
  - intros Hne Hall.
    apply (@PySeqFacts.split_join _ _ N.eqb_eq 13%N 10%N names);
      [discriminate | exact Hne | exact Hall].
Qed.

Lemma response_path_directory_listing_witness :
  exists body,
    encode_utf8 (PySeq.join CRLF sample_listing) = Ok body /\
    response_path sample_world (u "/") = Ok (body, b "text/plain") /\
    PySeq.split N.eqb CRLF (PySeq.join CRLF sample_listing) = sample_listing.
Proof.
  destruct (response_path_directory_listing sample_world (u "/")
              (names := sample_listing))
    as [body (Hbody & Hresp & _ & Hsplit)].
  - vm_compute. reflexivity.
  - vm_compute. reflexivity.
  - repeat constructor.
  - exists body. split; [exact Hbody|]. split; [exact Hresp|].
    apply Hsplit; [discriminate | repeat constructor].
Defined.

(** C9.  For every path that does not end in [.py], names an existing regular
    file and has a type in the [mimetypes] table, [response_path] returns the
    bytes of the file as they are, together with the UTF-8 encoding of that
    type name, which for an ASCII name is the name itself. *)
Theorem response_path_file_contents (w : world) (path : str) (content : bytes)
  (file_type : string) :
  PySeq.endswith N.eqb path (u ".py") = false ->
  fs w (location w path) = Regular content ->
  mime_db w path = Some file_type ->
  exists mimetype,
    encode_utf8 (u file_type) = Ok mimetype /\
    response_path w path = Ok (content, mimetype) /\
    (is_ascii file_type = true -> mimetype = b file_type).
Proof.
  intros E Hfs Hdb.
  destruct (encode_utf8_total _ (encodable_literal file_type)) as [m Hm].
  exists m. split; [exact Hm|]. split.
  - now rewrite (response_path_regular w _ E Hfs), Hdb, Hm.
  - intros Ha. rewrite (encode_utf8_ascii _ Ha) in Hm. congruence.
Qed.

Lemma response_path_file_contents_witness :
  response_path sample_world (u "/a.html") = Ok (b "<h1>hi</h1>", b "text/html") /\
  response_path sample_world (u "/b.png") = Ok ([x89; x50; x4e; x47], b "image/png").
Proof.
  split.
  - destruct (response_path_file_contents sample_world (u "/a.html")
                (content := b "<h1>hi</h1>") (file_type := "text/html"))
      as [m (_ & Hresp & Hascii)].
    + vm_compute. reflexivity.
    + vm_compute. reflexivity.
    + vm_compute. reflexivity.
    + rewrite Hresp, (Hascii eq_refl). reflexivity.
  - destruct (response_path_file_contents sample_world (u "/b.png")
                (content := [x89; x50; x4e; x47]) (file_type := "image/png"))
      as [m (_ & Hresp & Hascii)].
    + vm_compute. reflexivity.
    + vm_compute. reflexivity.
    + vm_compute. reflexivity.
    + rewrite Hresp, (Hascii eq_refl). reflexivity.
Defined.

(** ** The location of a path *)

Lemma endswith_last (s : str) (x y : N) :
  PySeq.endswith N.eqb (s ++ [x]) [y] = N.eqb x y.
Proof.
  unfold PySeq.endswith. rewrite length_app. cbn [length].
  replace (length s + 1 - 1) with (length s) by lia.
  rewrite PySeqFacts.skipn_length_app.
  replace (1 <=? length s + 1) with true
    by (symmetry; apply Nat.leb_le; lia).
  cbn. now rewrite andb_true_r.
Qed.

(** The document root is the working directory joined with [webroot]: it is
    not empty and does not end in a separator. *)
Lemma home_dir_shape w : exists pre, home_dir w = pre ++ [116%N].
Proof.
  unfold home_dir, os_path_abspath, os_path_join.
  replace (PySeq.startswith N.eqb (u "webroot") (u "/")) with false
    by reflexivity.
  destruct (str_eqb (cwd w) [] || PySeq.endswith N.eqb (cwd w) (u "/")).
  - exists (cwd w ++ u "webroo"). now rewrite <- app_assoc.
  - exists (cwd w ++ u "/" ++ u "webroo"). now rewrite <- !app_assoc.
Qed.

Lemma os_path_join_home w (p : str) :
  PySeq.startswith N.eqb p (u "/") = false ->
  os_path_join (home_dir w) p = home_dir w ++ u "/" ++ p.
Proof.
  intros Hp. destruct (home_dir_shape w) as [pre Hpre].
  unfold os_path_join. rewrite Hp, Hpre.
  change (u "/") with [47%N]. rewrite endswith_last.
  replace (str_eqb (pre ++ [116%N]) []) with false; [reflexivity|].
  now destruct pre.
Qed.

(** C10.  [response_path] looks at [os.path.join(home_dir, path[1:])]: the
    first character of the path is dropped whatever it is, so two paths that
    differ only there have the same location; a remainder that does not
    itself begin with a separator is put after the root and one separator
    (one that does replaces the root, as [os.path.join] has it).  The path
    [abc] is looked up as [bc] under the root, and both [/] and the empty
    path give the root followed by the separator, the root directory
    itself. *)
Theorem location_drops_first_character (w : world) :
  (forall path, location w path = os_path_join (home_dir w) (skipn 1 path)) /\
  (forall c c' rest, location w (c :: rest) = location w (c' :: rest)) /\
  (forall c rest,
     location w (c :: rest) =
     if PySeq.startswith N.eqb rest (u "/") then rest
     else home_dir w ++ u "/" ++ rest) /\
  location w (u "abc") = home_dir w ++ u "/bc" /\
  location w (u "/") = home_dir w ++ u "/" /\
  location w (u "") = home_dir w ++ u "/".
Proof.
  split; [reflexivity|]. split; [reflexivity|]. split; [|split; [|split]].
  - intros c rest. unfold location. cbn [skipn].
    destruct (PySeq.startswith N.eqb rest (u "/")) eqn:E.
    + unfold os_path_join. now rewrite E.
    + now apply os_path_join_home.
  - unfold location. now rewrite os_path_join_home.
  - unfold location. now rewrite os_path_join_home.
  - unfold location. now rewrite os_path_join_home.
Qed.

Example location_samples :
  location sample_world (u "abc") = u "/srv/webroot/bc" /\
  location sample_world (u "/a.html") = u "/srv/webroot/a.html" /\
  location sample_world (u "//etc/passwd") = u "/etc/passwd" /\
  location sample_world (u "/") = u "/srv/webroot/" /\
  location sample_world (u "") = u "/srv/webroot/".
Proof. repeat split; vm_compute; reflexivity. Qed.

(** ** Encoding and decoding *)

Lemma to_byte_of_N n : (n < 256)%N -> Byte.to_N (byte_of_N n) = n.
Proof.
  intros Hn. unfold byte_of_N.
  destruct (Byte.of_N n) as [x|] eqn:E.
  - now apply Byte.to_of_N.
  - apply Byte.of_N_None_iff in E. lia.
Qed.

(** Six low bits and the rest make up the number. *)
Lemma shift6_recompose a :
  N.lor (N.shiftl (N.shiftr a 6) 6) (N.land a 63) = a.
Proof.
  apply N.bits_inj. intros m.
  rewrite N.lor_spec, N.land_spec.
  change 63%N with (N.ones 6).
  destruct (N.lt_ge_cases m 6) as [Hm|Hm].
  - rewrite N.shiftl_spec_low by exact Hm.
    rewrite N.ones_spec_low by exact Hm. cbn. now rewrite andb_true_r.
  - rewrite N.shiftl_spec_high' by exact Hm.
    rewrite N.shiftr_spec', N.sub_add by exact Hm.
    rewrite N.ones_spec_high by exact Hm. now rewrite andb_false_r, orb_false_r.
Qed.

Lemma land63_bound a : (N.land a 63 < 64)%N.
Proof.
  change 63%N with (N.ones 6). rewrite N.land_ones.
  apply N.mod_lt. discriminate.
Qed.

Lemma shiftr_bound a k n :
  (a < 2 ^ (k + n))%N -> (N.shiftr a k < 2 ^ n)%N.
Proof.
  intros Ha. rewrite N.shiftr_div_pow2.
  apply N.Div0.div_lt_upper_bound.
  now rewrite <- N.pow_add_r.
Qed.

(** A fact about all numbers below a small bound, by running through them. *)
Lemma below_nat (P : N -> Prop) (n : nat) :
  (forall k, k < n -> P (N.of_nat k)) ->
  forall x, (x < N.of_nat n)%N -> P x.
Proof.
  intros H x Hx. rewrite <- (N2Nat.id x). apply H. lia.
Qed.

Ltac run_below n :=
  apply (@below_nat _ n);
  let k := fresh "k" in let Hk := fresh "Hk" in
  intros k Hk;
  repeat (destruct k as [|k]; [vm_compute; repeat split; congruence|]);
  exfalso; lia.

Lemma cont_byte x :
  (x < 64)%N ->
  (128 <=? N.lor 128 x)%N = true /\ (N.lor 128 x <? 192)%N = true /\
  N.land (N.lor 128 x) 63 = x.
Proof. revert x. run_below 64. Qed.

Lemma lead2_byte q :
  (q < 32)%N ->
  (N.lor 192 q <? 192)%N = false /\ (N.lor 192 q <? 224)%N = true /\
  N.land (N.lor 192 q) 31 = q.
Proof. revert q. run_below 32. Qed.

Lemma lead3_byte q :
  (q < 16)%N ->
  (N.lor 224 q <? 224)%N = false /\ (N.lor 224 q <? 240)%N = true /\
  N.land (N.lor 224 q) 15 = q.
Proof. revert q. run_below 16. Qed.

Lemma lead4_byte q :
  (q < 8)%N ->
  (N.lor 240 q <? 240)%N = false /\ (N.lor 240 q <? 248)%N = true /\
  N.land (N.lor 240 q) 7 = q.
Proof. revert q. run_below 8. Qed.

Lemma utf8_cont_spec c k :
  is_cont (utf8_cont c k) = true /\
  N.land (Byte.to_N (utf8_cont c k)) 63 = N.land (N.shiftr c (6 * k)) 63.
Proof.
  unfold utf8_cont, is_cont.
  pose proof (land63_bound (N.shiftr c (6 * k))) as Hb.
  destruct (cont_byte Hb) as (H1 & H2 & H3).
  rewrite to_byte_of_N by (apply N.ltb_lt in H2; lia).
  now rewrite H1, H2, H3.
Qed.

Lemma utf8_acc_cont c k :
  utf8_acc (N.shiftr c (6 * k + 6)) (utf8_cont c k) = N.shiftr c (6 * k).
Proof.
  unfold utf8_acc. rewrite (proj2 (utf8_cont_spec c k)).
  rewrite <- N.shiftr_shiftr. apply shift6_recompose.
Qed.

Lemma ltb_false_trans a m n :
  (m <= n)%N -> (a <? n)%N = false -> (a <? m)%N = false.
Proof. intros Hmn H. apply N.ltb_ge in H. apply N.ltb_ge. lia. Qed.

(** The decoder on a sequence of each length. *)
Lemma decode_utf8_1 x0 rest :
  (Byte.to_N x0 <? 128)%N = true ->
  decode_utf8 (x0 :: rest) = option_map (cons (Byte.to_N x0)) (decode_utf8 rest).
Proof. intros H. cbn [decode_utf8]. now rewrite H. Qed.

Lemma decode_utf8_2 x0 x1 rest :
  (Byte.to_N x0 <? 192)%N = false ->
  (Byte.to_N x0 <? 224)%N = true ->
  is_cont x1 = true ->
  (128 <=? utf8_acc (N.land (Byte.to_N x0) 31) x1)%N = true ->
  decode_utf8 (x0 :: x1 :: rest) =
  option_map (cons (utf8_acc (N.land (Byte.to_N x0) 31) x1)) (decode_utf8 rest).
Proof.
  intros H1 H2 H3 H4. cbn [decode_utf8].
  rewrite (@ltb_false_trans _ 128 192) by (lia || exact H1).
  now rewrite H1, H2, H3, H4.
Qed.

Lemma decode_utf8_3 x0 x1 x2 rest :
  (Byte.to_N x0 <? 224)%N = false ->
  (Byte.to_N x0 <? 240)%N = true ->
  is_cont x1 = true -> is_cont x2 = true ->
  let c := utf8_acc (utf8_acc (N.land (Byte.to_N x0) 15) x1) x2 in
  (2048 <=? c)%N = true ->
  ((55296 <=? c) && (c <=? 57343))%N = false ->
  decode_utf8 (x0 :: x1 :: x2 :: rest) = option_map (cons c) (decode_utf8 rest).
Proof.
  intros H1 H2 H3 H4 c H5 H6. cbn [decode_utf8]. fold c.
  rewrite (@ltb_false_trans _ 128 224) by (lia || exact H1).
  rewrite (@ltb_false_trans _ 192 224) by (lia || exact H1).
  now rewrite H1, H2, H3, H4, H5, H6.
Qed.

Lemma decode_utf8_4 x0 x1 x2 x3 rest :
  (Byte.to_N x0 <? 240)%N = false ->
  (Byte.to_N x0 <? 248)%N = true ->
  is_cont x1 = true -> is_cont x2 = true -> is_cont x3 = true ->
  let c := utf8_acc (utf8_acc (utf8_acc (N.land (Byte.to_N x0) 7) x1) x2) x3 in
  (65536 <=? c)%N = true ->
  (c <? 1114112)%N = true ->
  decode_utf8 (x0 :: x1 :: x2 :: x3 :: rest) = option_map (cons c) (decode_utf8 rest).
Proof.
  intros H1 H2 H3 H4 H5 c H6 H7. cbn [decode_utf8]. fold c.
  rewrite (@ltb_false_trans _ 128 240) by (lia || exact H1).
  rewrite (@ltb_false_trans _ 192 240) by (lia || exact H1).
  rewrite (@ltb_false_trans _ 224 240) by (lia || exact H1).
  now rewrite H1, H2, H3, H4, H5, H6, H7.
Qed.

(** Decoding undoes the encoding of one code point, whatever follows. *)
Lemma decode_encode_char c x rest :
  utf8_encode_char c = Ok x ->
  decode_utf8 (x ++ rest) = option_map (cons c) (decode_utf8 rest).
Proof.
  unfold utf8_encode_char.
  pose proof (utf8_cont_spec c 0) as [C0 _].
  pose proof (utf8_cont_spec c 1) as [C1 _].
  pose proof (utf8_cont_spec c 2) as [C2 _].
  pose proof (utf8_acc_cont c 0) as A0.
  pose proof (utf8_acc_cont c 1) as A1.
  pose proof (utf8_acc_cont c 2) as A2.
  change (6 * 0 + 6)%N with 6%N in A0. change (6 * 0)%N with 0%N in A0.
  change (6 * 1 + 6)%N with 12%N in A1. change (6 * 1)%N with 6%N in A1.
  change (6 * 2 + 6)%N with 18%N in A2. change (6 * 2)%N with 12%N in A2.
  rewrite N.shiftr_0_r in A0.
  destruct (c <? 128)%N eqn:E1.
  { intros [= <-].
    assert (Hc : (c < 256)%N) by (apply N.ltb_lt in E1; lia).
    pose proof (@decode_utf8_1 (byte_of_N c) rest) as D.
    rewrite (to_byte_of_N Hc) in D. exact (D E1). }
  destruct (c <? 2048)%N eqn:E2.
  { intros [= <-]. apply N.ltb_lt in E2. apply N.ltb_ge in E1.
    assert (Hq : (N.shiftr c 6 < 32)%N) by (apply (@shiftr_bound c 6 5); exact E2).
    destruct (lead2_byte Hq) as (L1 & L2 & L3).
    assert (Hn : (N.lor 192 (N.shiftr c 6) < 256)%N)
      by (apply N.ltb_lt in L2; lia).
    pose proof (@decode_utf8_2 (byte_of_N (N.lor 192 (N.shiftr c 6)))
                  (utf8_cont c 0) rest) as D.
    rewrite (to_byte_of_N Hn), L3, A0 in D.
    exact (D L1 L2 C0 (proj2 (N.leb_le _ _) E1)). }
  destruct (c <? 65536)%N eqn:E3.
  { destruct ((55296 <=? c) && (c <=? 57343))%N eqn:Es; [discriminate|].
    intros [= <-]. apply N.ltb_lt in E3. apply N.ltb_ge in E2.
    assert (Hq : (N.shiftr c 12 < 16)%N) by (apply (@shiftr_bound c 12 4); exact E3).
    destruct (lead3_byte Hq) as (L1 & L2 & L3).
    assert (Hn : (N.lor 224 (N.shiftr c 12) < 256)%N)
      by (apply N.ltb_lt in L2; lia).
    pose proof (@decode_utf8_3 (byte_of_N (N.lor 224 (N.shiftr c 12)))
                  (utf8_cont c 1) (utf8_cont c 0) rest) as D.
    cbv zeta in D. rewrite (to_byte_of_N Hn), L3, A1, A0 in D.
    exact (D L1 L2 C1 C0 (proj2 (N.leb_le _ _) E2) Es). }
  destruct (c <? 1114112)%N eqn:E4; [|discriminate].
  intros [= <-]. apply N.ltb_ge in E3. pose proof E4 as E4'.
  apply N.ltb_lt in E4'.
  assert (Hq : (N.shiftr c 18 < 8)%N).
  { apply (@shiftr_bound c 18 3). change (2 ^ (18 + 3))%N with 2097152%N. lia. }
  destruct (lead4_byte Hq) as (L1 & L2 & L3).
  assert (Hn : (N.lor 240 (N.shiftr c 18) < 256)%N)
    by (apply N.ltb_lt in L2; lia).
  pose proof (@decode_utf8_4 (byte_of_N (N.lor 240 (N.shiftr c 18)))
                (utf8_cont c 2) (utf8_cont c 1) (utf8_cont c 0) rest) as D.
  cbv zeta in D. rewrite (to_byte_of_N Hn), L3, A2, A1, A0 in D.
  exact (D L1 L2 C2 C1 C0 (proj2 (N.leb_le _ _) E3) E4).
Qed.

Lemma decode_encode_utf8 (s : str) (data : bytes) :
  encode_utf8 s = Ok data -> decode_utf8 data = Some s.
Proof.
  revert data. induction s as [|c s IH]; intros data; cbn [encode_utf8].
  - now intros [= <-].
  - destruct (utf8_encode_char c) as [x|e] eqn:Ec; cbn [bind]; [|discriminate].
    destruct (encode_utf8 s) as [y|e] eqn:Es; cbn [bind]; [|discriminate].
    intros [= <-]. rewrite (@decode_encode_char c x y Ec), (IH y eq_refl).
    reflexivity.
Qed.

(** The other way round. *)
Lemma utf8_acc_split acc x :
  N.shiftr (utf8_acc acc x) 6 = acc /\
  N.land (utf8_acc acc x) 63 = N.land (Byte.to_N x) 63.
Proof.
  unfold utf8_acc. change 63%N with (N.ones 6). split.
  - apply N.bits_inj. intros m.
    rewrite N.shiftr_spec', N.lor_spec, N.land_spec.
    rewrite N.shiftl_spec_high' by lia.
    rewrite N.ones_spec_high by lia.
    rewrite N.add_sub. now rewrite andb_false_r, orb_false_r.
  - apply N.bits_inj. intros m.
    rewrite !N.land_spec, N.lor_spec, N.land_spec.
    destruct (N.lt_ge_cases m 6) as [Hm|Hm].
    + rewrite N.shiftl_spec_low by exact Hm. cbn.
      now rewrite <- andb_assoc, andb_diag.
    + rewrite N.ones_spec_high by exact Hm. now rewrite !andb_false_r.
Qed.

Lemma shiftr_small a k n :
  (N.shiftr a k < n)%N -> (a < 2 ^ k * n)%N.
Proof.
  rewrite N.shiftr_div_pow2. intros H.
  pose proof (N.mul_succ_div_gt a (2 ^ k)) as G.
  assert (Hp : (2 ^ k <> 0)%N) by (apply N.pow_nonzero; discriminate).
  specialize (G Hp). nia.
Qed.

Lemma cont_byte_back x :
  is_cont x = true ->
  byte_of_N (N.lor 128 (N.land (Byte.to_N x) 63)) = x.
Proof. destruct x; vm_compute; congruence. Qed.

Lemma lead2_byte_back x :
  (Byte.to_N x <? 192)%N = false -> (Byte.to_N x <? 224)%N = true ->
  byte_of_N (N.lor 192 (N.land (Byte.to_N x) 31)) = x /\
  (N.land (Byte.to_N x) 31 < 32)%N.
Proof. destruct x; vm_compute; intros; split; congruence. Qed.

Lemma lead3_byte_back x :
  (Byte.to_N x <? 224)%N = false -> (Byte.to_N x <? 240)%N = true ->
  byte_of_N (N.lor 224 (N.land (Byte.to_N x) 15)) = x /\
  (N.land (Byte.to_N x) 15 < 16)%N.
Proof. destruct x; vm_compute; intros; split; congruence. Qed.

Lemma lead4_byte_back x :
  (Byte.to_N x <? 240)%N = false -> (Byte.to_N x <? 248)%N = true ->
  byte_of_N (N.lor 240 (N.land (Byte.to_N x) 7)) = x.
Proof. destruct x; vm_compute; congruence. Qed.

Lemma utf8_cont_0 c : utf8_cont c 0 = byte_of_N (N.lor 128 (N.land c 63)).
Proof. unfold utf8_cont. change (6 * 0)%N with 0%N. now rewrite N.shiftr_0_r. Qed.

Lemma encode_decoded_1 x0 :
  (Byte.to_N x0 <? 128)%N = true -> utf8_encode_char (Byte.to_N x0) = Ok [x0].
Proof. intros H. unfold utf8_encode_char. now rewrite H, byte_of_to_N. Qed.

Lemma encode_decoded_2 x0 x1 :
  (Byte.to_N x0 <? 192)%N = false -> (Byte.to_N x0 <? 224)%N = true ->
  is_cont x1 = true ->
  (128 <=? utf8_acc (N.land (Byte.to_N x0) 31) x1)%N = true ->
  utf8_encode_char (utf8_acc (N.land (Byte.to_N x0) 31) x1) = Ok [x0; x1].
Proof.
  intros H1 H2 H3 H4.
  destruct (lead2_byte_back x0 H1 H2) as [Hx0 Hq].
  set (c := utf8_acc (N.land (Byte.to_N x0) 31) x1) in *.
  destruct (utf8_acc_split (N.land (Byte.to_N x0) 31) x1) as [S1 S0].
  fold c in S1, S0.
  assert (Hc : (c < 2048)%N).
  { apply (@shiftr_small c 6 32). now rewrite S1. }
  apply N.leb_le in H4.
  unfold utf8_encode_char.
  rewrite (proj2 (N.ltb_ge c 128)) by lia.
  rewrite (proj2 (N.ltb_lt c 2048)) by lia.
  now rewrite utf8_cont_0, S1, S0, Hx0, (cont_byte_back x1 H3).
Qed.

Lemma encode_decoded_3 x0 x1 x2 :
  (Byte.to_N x0 <? 224)%N = false -> (Byte.to_N x0 <? 240)%N = true ->
  is_cont x1 = true -> is_cont x2 = true ->
  let c := utf8_acc (utf8_acc (N.land (Byte.to_N x0) 15) x1) x2 in
  (2048 <=? c)%N = true ->
  ((55296 <=? c) && (c <=? 57343))%N = false ->
  utf8_encode_char c = Ok [x0; x1; x2].
Proof.
  intros H1 H2 H3 H4 c H5 H6.
  destruct (lead3_byte_back x0 H1 H2) as [Hx0 Hq].
  destruct (utf8_acc_split (utf8_acc (N.land (Byte.to_N x0) 15) x1) x2)
    as [S1 S0].
  destruct (utf8_acc_split (N.land (Byte.to_N x0) 15) x1) as [T1 T0].
  fold c in S1, S0.
  assert (S2 : N.shiftr c 12 = N.land (Byte.to_N x0) 15).
  { change 12%N with (6 + 6)%N. now rewrite <- N.shiftr_shiftr, S1, T1. }
  assert (Hc : (c < 65536)%N).
  { apply (@shiftr_small c 12 16). now rewrite S2. }
  apply N.leb_le in H5.
  unfold utf8_encode_char.
  rewrite (proj2 (N.ltb_ge c 128)) by lia.
  rewrite (proj2 (N.ltb_ge c 2048)) by lia.
  rewrite (proj2 (N.ltb_lt c 65536)) by lia.
  rewrite H6, utf8_cont_0, S0, S2, Hx0, (cont_byte_back x2 H4).
  unfold utf8_cont. change (6 * 1)%N with 6%N.
  now rewrite S1, T0, (cont_byte_back x1 H3).
Qed.

Lemma encode_decoded_4 x0 x1 x2 x3 :
  (Byte.to_N x0 <? 240)%N = false -> (Byte.to_N x0 <? 248)%N = true ->
  is_cont x1 = true -> is_cont x2 = true -> is_cont x3 = true ->
  let c := utf8_acc (utf8_acc (utf8_acc (N.land (Byte.to_N x0) 7) x1) x2) x3 in
  (65536 <=? c)%N = true ->
  (c <? 1114112)%N = true ->
  utf8_encode_char c = Ok [x0; x1; x2; x3].
Proof.
  intros H1 H2 H3 H4 H5 c H6 H7.
  pose proof (lead4_byte_back x0 H1 H2) as Hx0.
  destruct (utf8_acc_split
              (utf8_acc (utf8_acc (N.land (Byte.to_N x0) 7) x1) x2) x3)
    as [S1 S0].
  destruct (utf8_acc_split (utf8_acc (N.land (Byte.to_N x0) 7) x1) x2)
    as [T1 T0].
  destruct (utf8_acc_split (N.land (Byte.to_N x0) 7) x1) as [U1 U0].
  fold c in S1, S0.
  assert (S2 : N.shiftr c 12 = utf8_acc (N.land (Byte.to_N x0) 7) x1).
  { change 12%N with (6 + 6)%N. now rewrite <- N.shiftr_shiftr, S1, T1. }
  assert (S3 : N.shiftr c 18 = N.land (Byte.to_N x0) 7).
  { change 18%N with (12 + 6)%N. now rewrite <- N.shiftr_shiftr, S2, U1. }
  apply N.leb_le in H6.
  unfold utf8_encode_char.
  rewrite (proj2 (N.ltb_ge c 128)) by lia.
  rewrite (proj2 (N.ltb_ge c 2048)) by lia.
  rewrite (proj2 (N.ltb_ge c 65536)) by lia.
  rewrite H7, utf8_cont_0, S0, S3, Hx0, (cont_byte_back x3 H5).
  unfold utf8_cont. change (6 * 1)%N with 6%N. change (6 * 2)%N with 12%N.
  now rewrite S1, S2, T0, U0, (cont_byte_back x1 H3), (cont_byte_back x2 H4).
Qed.

Lemma option_map_cons_inv (c c' : N) (s : str) (o : option str) :
  option_map (cons c') o = Some (c :: s) -> c' = c /\ o = Some s.
Proof. destruct o as [t|]; cbn; [now intros [= -> ->] | discriminate]. Qed.

(** A decoded text that begins with [c] comes from data that begin with the
    encoding of [c]. *)
Lemma decode_utf8_step data c s :
  decode_utf8 data = Some (c :: s) ->
  exists x rest,
    data = x ++ rest /\ utf8_encode_char c = Ok x /\ decode_utf8 rest = Some s.
Proof.
  destruct data as [|x0 rest]; [discriminate|]. cbn [decode_utf8].
  destruct (Byte.to_N x0 <? 128)%N eqn:E1.
  { intros [<- Hs]%option_map_cons_inv. exists [x0], rest.
    now rewrite encode_decoded_1. }
  destruct (Byte.to_N x0 <? 192)%N eqn:E2; [discriminate|].
  destruct (Byte.to_N x0 <? 224)%N eqn:E3.
  { destruct rest as [|x1 rest]; [discriminate|].
    destruct (is_cont x1) eqn:C1; [|discriminate]. cbn [andb].
    destruct (128 <=? _)%N eqn:R; [|discriminate].
    intros [<- Hs]%option_map_cons_inv. exists [x0; x1], rest.
    now rewrite encode_decoded_2. }
  destruct (Byte.to_N x0 <? 240)%N eqn:E4.
  { destruct rest as [|x1 [|x2 rest]]; try discriminate.
    destruct (is_cont x1) eqn:C1; [|discriminate].
    destruct (is_cont x2) eqn:C2; [|discriminate]. cbn [andb].
    destruct (2048 <=? _)%N eqn:R; [|discriminate]. cbn [andb].
    destruct ((55296 <=? _) && _)%N eqn:Sg; [discriminate|]. cbn [negb].
    intros [<- Hs]%option_map_cons_inv. exists [x0; x1; x2], rest.
    now rewrite encode_decoded_3. }
  destruct (Byte.to_N x0 <? 248)%N eqn:E5; [|discriminate].
  destruct rest as [|x1 [|x2 [|x3 rest]]]; try discriminate.
  destruct (is_cont x1) eqn:C1; [|discriminate].
  destruct (is_cont x2) eqn:C2; [|discriminate].
  destruct (is_cont x3) eqn:C3; [|discriminate]. cbn [andb].
  destruct (65536 <=? _)%N eqn:R; [|discriminate]. cbn [andb].
  destruct (_ <? 1114112)%N eqn:R'; [|discriminate].
  intros [<- Hs]%option_map_cons_inv. exists [x0; x1; x2; x3], rest.
  now rewrite encode_decoded_4.
Qed.

Lemma option_map_cons_nil (c : N) (o : option str) :
  option_map (cons c) o <> Some [].
Proof. destruct o; discriminate. Qed.

Lemma decode_utf8_nil data : decode_utf8 data = Some [] -> data = [].
Proof.
  destruct data as [|x0 rest]; [reflexivity|]. cbn [decode_utf8].
  intros H. exfalso. revert H.
  destruct (Byte.to_N x0 <? 128)%N; [apply option_map_cons_nil|].
  destruct (Byte.to_N x0 <? 192)%N; [discriminate|].
  destruct (Byte.to_N x0 <? 224)%N.
  { destruct rest as [|x1 rest]; [discriminate|].
    destruct (_ && _); [apply option_map_cons_nil | discriminate]. }
  destruct (Byte.to_N x0 <? 240)%N.
  { destruct rest as [|x1 [|x2 rest]]; try discriminate.
    destruct (_ && _); [apply option_map_cons_nil | discriminate]. }
  destruct (Byte.to_N x0 <? 248)%N; [|discriminate].
  destruct rest as [|x1 [|x2 [|x3 rest]]]; try discriminate.
  destruct (_ && _); [apply option_map_cons_nil | discriminate].
Qed.

Lemma encode_decode_utf8 (data : bytes) (s : str) :
  decode_utf8 data = Some s -> encode_utf8 s = Ok data.
Proof.
  revert data. induction s as [|c s IH]; intros data H.
  - now rewrite (decode_utf8_nil _ H).
  - destruct (decode_utf8_step _ H) as (x & rest & -> & Hx & Hrest).
    cbn [encode_utf8]. rewrite Hx, (IH _ Hrest). reflexivity.
Qed.

(** ** The receiving loop *)

Lemma startswith_app_l (s t p : str) :
  PySeq.startswith N.eqb s p = true -> PySeq.startswith N.eqb (s ++ t) p = true.
Proof.
  revert s. induction p as [|x p IH]; intros [|y s]; cbn; try easy.
  intros [-> H]%andb_true_iff. now rewrite (IH _ H).
Qed.

Lemma contains_app_l (s t p : str) :
  PySeq.contains N.eqb s p = true -> PySeq.contains N.eqb (s ++ t) p = true.
Proof.
  induction s as [|y s IH].
  - cbn. rewrite orb_false_r. destruct p as [|x p]; [|discriminate].
    intros _. destruct t; reflexivity.
  - cbn [app PySeq.contains]. intros [H|H]%orb_true_iff.
    + pose proof (startswith_app_l (y :: s) t p H) as H'.
      cbn [app] in H'. now rewrite H'.
    + rewrite (IH H). apply orb_true_r.
Qed.

(** A text without blank line has no prefix with one. *)
Lemma contains_prefix_false (s t p : str) :
  PySeq.contains N.eqb (s ++ t) p = false -> PySeq.contains N.eqb s p = false.
Proof.
  intros H. destruct (PySeq.contains N.eqb s p) eqn:E; [|reflexivity].
  now rewrite (contains_app_l s t p E) in H.
Qed.

(** The text in hand only grows. *)
Lemma gathered_extends conn k n request t :
  gathered conn k n request = Some t -> exists more, t = request ++ more.
Proof.
  revert n request. induction k as [|k IH]; intros n request; cbn.
  - intros [= <-]. exists []. now rewrite app_nil_r.
  - destruct (decode_utf8 (conn n)) as [text|]; [|discriminate].
    intros H. destruct (IH _ _ H) as [more ->].
    exists (text ++ more). now rewrite app_assoc.
Qed.

Lemma gathered_add conn j k n request :
  gathered conn (j + k) n request =
  match gathered conn j n request with
  | Some t => gathered conn k (n + j) t
  | None => None
  end.
Proof.
  revert n request. induction j as [|j IH]; intros n request; cbn.
  - now rewrite Nat.add_0_r.
  - destruct (decode_utf8 (conn n)) as [text|]; [|reflexivity].
    rewrite IH. now rewrite Nat.add_succ_r.
Qed.

(** As long as the text in hand has no blank line, the loop goes on. *)
Lemma recv_loop_skip conn k fuel n request t :
  gathered conn k n request = Some t ->
  PySeq.contains N.eqb t blank_line = false ->
  recv_loop conn (k + fuel) n request = recv_loop conn fuel (n + k) t.
Proof.
  revert n request. induction k as [|k IH]; intros n request; cbn.
  - intros [= <-] _. now rewrite Nat.add_0_r.
  - destruct (decode_utf8 (conn n)) as [text|]; [|discriminate].
    intros Hg Hc.
    destruct (gathered_extends _ _ _ _ Hg) as [more Hmore].
    assert (Hpre : PySeq.contains N.eqb (request ++ text) blank_line = false).
    { apply (contains_prefix_false _ more). now rewrite <- Hmore. }
    rewrite Hpre, (IH _ _ Hg Hc). now rewrite Nat.add_succ_r.
Qed.

(** More turns do not change how the loop has left. *)
Lemma recv_loop_more conn fuel extra n request :
  recv_loop conn fuel n request <> Pending ->
  recv_loop conn (fuel + extra) n request = recv_loop conn fuel n request.
Proof.
  revert n request. induction fuel as [|fuel IH]; intros n request; cbn.
  - congruence.
  - destruct (decode_utf8 (conn n)) as [text|]; [|reflexivity].
    destruct (PySeq.contains N.eqb (request ++ text) blank_line);
      [reflexivity | apply IH].
Qed.

Lemma recv_loop_request conn fuel n request r :
  recv_loop conn fuel n request = Request r ->
  PySeq.contains N.eqb r blank_line = true /\
  exists k t text,
    k < fuel /\ gathered conn k n request = Some t /\
    (k = 0 \/ PySeq.contains N.eqb t blank_line = false) /\
    decode_utf8 (conn (n + k)) = Some text /\ r = t ++ text.
Proof.
  revert n request. induction fuel as [|fuel IH]; intros n request; cbn;
    [discriminate|].
  destruct (decode_utf8 (conn n)) as [text|] eqn:Hd; [|discriminate].
  destruct (PySeq.contains N.eqb (request ++ text) blank_line) eqn:Hc.
  - intros [= <-]. split; [exact Hc|].
    exists 0, request, text. rewrite Nat.add_0_r. repeat split; auto. lia.
  - intros H. destruct (IH _ _ H) as (Hr & k & t & text' & Hk & Hg & Hno & Hd' & ->).
    split; [exact Hr|].
    exists (S k), t, text'. cbn. rewrite Hd, Nat.add_succ_r.
    repeat split; auto; try lia.
    right. destruct Hno as [-> | Hno]; [|exact Hno].
    cbn in Hg. now injection Hg as <-.
Qed.

Lemma gathered_pieces conn (pieces : list str) n request :
  (forall j, j < length pieces ->
     decode_utf8 (conn (n + j)) = Some (nth j pieces [])) ->
  gathered conn (length pieces) n request = Some (request ++ concat pieces).
Proof.
  revert n request. induction pieces as [|p pieces IH]; intros n request H.
  - cbn. now rewrite app_nil_r.
  - cbn [length gathered concat].
    pose proof (H 0 (Nat.lt_0_succ _)) as H0. rewrite Nat.add_0_r in H0.
    cbn in H0. rewrite H0, IH.
    + now rewrite app_assoc.
    + intros j Hj. specialize (H (S j)). rewrite Nat.add_succ_r in H.
      apply H. cbn. lia.
Qed.

(** X3.  The receiving loop hands over a request exactly when, after some
    number of calls of [recv] whose data all decode, the text gathered so far
    has no blank line and the next chunk decodes and brings one in; the
    request is then all the text gathered, the last chunk included up to its
    end, and it contains a blank line. *)
Theorem recv_loop_spec (conn : connection) (r : str) :
  (exists fuel, recv_loop conn fuel 0 [] = Request r) <->
  (exists k t text,
     gathered conn k 0 [] = Some t /\
     PySeq.contains N.eqb t blank_line = false /\
     decode_utf8 (conn k) = Some text /\
     r = t ++ text /\
     PySeq.contains N.eqb r blank_line = true).
Proof.
  split.
  - intros [fuel H].
    destruct (recv_loop_request _ _ _ _ H)
      as (Hr & k & t & text & _ & Hg & Hno & Hd & ->).
    exists k, t, text. repeat split; auto.
    destruct Hno as [-> | Hno]; [|exact Hno].
    cbn in Hg. now injection Hg as <-.
  - intros (k & t & text & Hg & Hno & Hd & -> & Hr).
    exists (k + 1). rewrite (recv_loop_skip conn k 1 0 [] Hg Hno).
    cbn. now rewrite Hd, Hr.
Qed.

Lemma recv_loop_pending_forever (conn : connection) (k : nat) (t : str) :
  gathered conn k 0 [] = Some t ->
  PySeq.contains N.eqb t blank_line = false ->
  (forall m, k <= m -> conn m = []) ->
  forall fuel, recv_loop conn fuel 0 [] = Pending.
Proof.
  intros Hg Hno Hclosed.
  assert (Hidle : forall fuel m, k <= m -> recv_loop conn fuel m t = Pending).
  { induction fuel as [|fuel IH]; intros m Hm; [reflexivity|].
    cbn. rewrite (Hclosed m Hm). cbn. rewrite app_nil_r, Hno.
    apply IH. lia. }
  assert (Hlate : forall fuel, recv_loop conn (k + fuel) 0 [] = Pending).
  { intros fuel. rewrite (recv_loop_skip conn k fuel 0 [] Hg Hno).
    apply Hidle. lia. }
  intros fuel.
  destruct (recv_loop conn fuel 0 []) as [r| |] eqn:E; [| |reflexivity].
  - pose proof (@recv_loop_more conn fuel k 0 []) as M.
    rewrite E in M. rewrite Nat.add_comm, Hlate in M.
    symmetry. apply M. discriminate.
  - pose proof (@recv_loop_more conn fuel k 0 []) as M.
    rewrite E in M. rewrite Nat.add_comm, Hlate in M.
    symmetry. apply M. discriminate.
Qed.

(** X4.  A peer that closes the connection before it has sent a blank line
    keeps the receiving loop turning for good: [recv] returns the empty
    [bytes] from then on, the text does not change, and the loop has no other
    way out.  The connection is never answered. *)
Theorem recv_loop_closed_early (w : world) (conn : connection) (k : nat) (t : str) :
  gathered conn k 0 [] = Some t ->
  PySeq.contains N.eqb t blank_line = false ->
  (forall m, k <= m -> conn m = []) ->
  forall fuel,
    recv_loop conn fuel 0 [] = Pending /\
    server_connection w conn fuel = Receiving.
Proof.
  intros Hg Hno Hclosed fuel.
  pose proof (@recv_loop_pending_forever conn k t Hg Hno Hclosed fuel) as H.
  split; [exact H|]. unfold server_connection. now rewrite H.
Qed.

Lemma recv_loop_closed_early_witness :
  server_connection sample_world
    (chunks_then_closed [b ("GET / HTTP/1.1" ++ crlf)]) 1000 = Receiving.
Proof.
  refine (proj2 (@recv_loop_closed_early sample_world
                   (chunks_then_closed [b ("GET / HTTP/1.1" ++ crlf)])
                   1 (u ("GET / HTTP/1.1" ++ crlf)) _ _ _ 1000)).
  - vm_compute. reflexivity.
  - vm_compute. reflexivity.
  - intros m Hm. unfold chunks_then_closed.
    destruct m as [|m]; [lia|]. now destruct m.
Defined.




(** X6.  However a request is cut into chunks, as long as every chunk is the
    encoding of a piece of text (no chunk ends inside a character) and the
    blank line is only complete with the last one, the loop hands over the
    pieces put together, and the peer is answered as [server_sent] says for
    that text. *)
Theorem recv_loop_pieces (w : world) (conn : connection) (pieces : list str) :
  (forall j, j < length pieces -> encode_utf8 (nth j pieces []) = Ok (conn j)) ->
  PySeq.contains N.eqb (concat (removelast pieces)) blank_line = false ->
  PySeq.contains N.eqb (concat pieces) blank_line = true ->
  forall fuel, length pieces <= fuel ->
    recv_loop conn fuel 0 [] = Request (concat pieces) /\
    server_connection w conn fuel =
      match server_sent w (concat pieces) with
      | Some response => Sent response
      | None => Dropped
      end.
Proof.
  intros Henc Hno Hyes fuel Hfuel.
  assert (Hne : pieces <> []) by (intros ->; discriminate).
  assert (Hdec : forall j, j < length pieces ->
                   decode_utf8 (conn j) = Some (nth j pieces [])).
  { intros j Hj. apply decode_encode_utf8. now apply Henc. }
  pose proof (app_removelast_last [] Hne) as Hsplit.
  set (init := removelast pieces) in *. set (final := last pieces []) in *.
  assert (Hlen : length pieces = length init + 1)
    by (rewrite Hsplit, length_app; reflexivity).
  assert (Hg : gathered conn (length init) 0 [] = Some (concat init)).
  { rewrite (gathered_pieces conn init 0 []); [reflexivity|].
    intros j Hj. cbn. rewrite Hdec by lia.
    rewrite Hsplit. now rewrite app_nth1. }
  assert (Hlast : decode_utf8 (conn (length init)) = Some final).
  { rewrite Hdec by lia. rewrite Hsplit. now rewrite nth_middle. }
  assert (Hcat : concat pieces = concat init ++ final).
  { rewrite Hsplit, concat_app. cbn. now rewrite app_nil_r. }
  assert (Hloop : recv_loop conn fuel 0 [] = Request (concat pieces)).
  { replace fuel with (length init + S (fuel - length pieces)) by lia.
    rewrite (recv_loop_skip conn (length init) _ 0 [] Hg Hno).
    cbn. rewrite Hlast, <- Hcat, Hyes. reflexivity. }
  split; [exact Hloop|]. unfold server_connection. now rewrite Hloop.
Qed.

Lemma recv_loop_pieces_witness :
  server_connection sample_world
    (chunks_then_closed [b "GET /a.ht"; b ("ml HTTP/1.1" ++ crlf);
                         b (crlf ++ "trailing")]) 3
  = Sent (response_ok (b "<h1>hi</h1>") (b "text/html")).
Proof.
  pose proof (@recv_loop_pieces sample_world
                (chunks_then_closed [b "GET /a.ht"; b ("ml HTTP/1.1" ++ crlf);
                                     b (crlf ++ "trailing")])
                [u "GET /a.ht"; u ("ml HTTP/1.1" ++ crlf); u (crlf ++ "trailing")])
    as H.
  refine (eq_trans (proj2 (H _ _ _ 3 _)) _).
  - intros j Hj. destruct j as [|[|[|j]]]; try (vm_compute; reflexivity).
    cbn in Hj. lia.
  - vm_compute. reflexivity.
  - vm_compute. reflexivity.
  - cbn. lia.
  - vm_compute. reflexivity.
Defined.

(** The first byte of an encoding tells its length. *)
Lemma utf8_encode_char_shape c x :
  utf8_encode_char c = Ok x ->
  match x with
  | [x0] => (Byte.to_N x0 <? 128)%N = true
  | [x0; _] =>
      (Byte.to_N x0 <? 192)%N = false /\ (Byte.to_N x0 <? 224)%N = true
  | [x0; _; _] =>
      (Byte.to_N x0 <? 224)%N = false /\ (Byte.to_N x0 <? 240)%N = true
  | [x0; _; _; _] =>
      (Byte.to_N x0 <? 240)%N = false /\ (Byte.to_N x0 <? 248)%N = true
  | _ => False
  end.
Proof.
  unfold utf8_encode_char.
  destruct (c <? 128)%N eqn:E1.
  { intros [= <-].
    assert (Hn : (c < 256)%N) by (apply N.ltb_lt in E1; lia).
    change ((Byte.to_N (byte_of_N c) <? 128)%N = true).
    now rewrite (to_byte_of_N Hn). }
  destruct (c <? 2048)%N eqn:E2.
  { intros [= <-]. apply N.ltb_lt in E2.
    assert (Hq : (N.shiftr c 6 < 32)%N) by (apply (@shiftr_bound c 6 5); exact E2).
    destruct (lead2_byte Hq) as (L1 & L2 & _).
    assert (Hn : (N.lor 192 (N.shiftr c 6) < 256)%N)
      by (apply N.ltb_lt in L2; lia).
    change ((Byte.to_N (byte_of_N (N.lor 192 (N.shiftr c 6))) <? 192)%N = false /\
            (Byte.to_N (byte_of_N (N.lor 192 (N.shiftr c 6))) <? 224)%N = true).
    now rewrite (to_byte_of_N Hn). }
  destruct (c <? 65536)%N eqn:E3.
  { destruct ((55296 <=? c) && (c <=? 57343))%N; [discriminate|].
    intros [= <-]. apply N.ltb_lt in E3.
    assert (Hq : (N.shiftr c 12 < 16)%N) by (apply (@shiftr_bound c 12 4); exact E3).
    destruct (lead3_byte Hq) as (L1 & L2 & _).
    assert (Hn : (N.lor 224 (N.shiftr c 12) < 256)%N)
      by (apply N.ltb_lt in L2; lia).
    change ((Byte.to_N (byte_of_N (N.lor 224 (N.shiftr c 12))) <? 224)%N = false /\
            (Byte.to_N (byte_of_N (N.lor 224 (N.shiftr c 12))) <? 240)%N = true).
    now rewrite (to_byte_of_N Hn). }
  destruct (c <? 1114112)%N eqn:E4; [|discriminate].
  intros [= <-]. apply N.ltb_lt in E4.
  assert (Hq : (N.shiftr c 18 < 8)%N).
  { apply (@shiftr_bound c 18 3). change (2 ^ (18 + 3))%N with 2097152%N. lia. }
  destruct (lead4_byte Hq) as (L1 & L2 & _).
  assert (Hn : (N.lor 240 (N.shiftr c 18) < 256)%N)
    by (apply N.ltb_lt in L2; lia).
  change ((Byte.to_N (byte_of_N (N.lor 240 (N.shiftr c 18))) <? 240)%N = false /\
          (Byte.to_N (byte_of_N (N.lor 240 (N.shiftr c 18))) <? 248)%N = true).
  now rewrite (to_byte_of_N Hn).
Qed.

Lemma decode_utf8_cut_char c x k :
  utf8_encode_char c = Ok x ->
  0 < k < length x ->
  decode_utf8 (firstn k x) = None.
Proof.
  intros Hx Hk. apply utf8_encode_char_shape in Hx.
  destruct x as [|x0 [|x1 [|x2 [|x3 [|x4 x]]]]]; try contradiction;
    cbn [length] in Hk; try lia.
  - destruct Hx as [L1 L2].
    replace k with 1 by lia. cbn [firstn decode_utf8].
    rewrite (@ltb_false_trans _ 128 192) by (lia || exact L1).
    now rewrite L1, L2.
  - destruct Hx as [L1 L2].
    assert (Hk' : k = 1 \/ k = 2) by lia.
    destruct Hk' as [-> | ->]; cbn [firstn decode_utf8];
      rewrite (@ltb_false_trans _ 128 224) by (lia || exact L1);
      rewrite (@ltb_false_trans _ 192 224) by (lia || exact L1);
      now rewrite L1, L2.
  - destruct Hx as [L1 L2].
    assert (Hk' : k = 1 \/ k = 2 \/ k = 3) by lia.
    destruct Hk' as [-> | [-> | ->]]; cbn [firstn decode_utf8];
      rewrite (@ltb_false_trans _ 128 240) by (lia || exact L1);
      rewrite (@ltb_false_trans _ 192 240) by (lia || exact L1);
      rewrite (@ltb_false_trans _ 224 240) by (lia || exact L1);
      now rewrite L1, L2.
Qed.

Lemma decode_utf8_after (s : str) (data rest : bytes) :
  encode_utf8 s = Ok data ->
  decode_utf8 (data ++ rest) = option_map (app s) (decode_utf8 rest).
Proof.
  revert data. induction s as [|c s IH]; intros data; cbn [encode_utf8].
  - intros [= <-]. cbn. now destruct (decode_utf8 rest).
  - destruct (utf8_encode_char c) as [x|e] eqn:Ec; cbn [bind]; [|discriminate].
    destruct (encode_utf8 s) as [y|e] eqn:Es; cbn [bind]; [|discriminate].
    intros [= <-]. rewrite <- app_assoc.
    rewrite (@decode_encode_char c x (y ++ rest) Ec), (IH y eq_refl).
    now destruct (decode_utf8 rest).
Qed.

(** X7.  Each chunk is decoded on its own: when the first chunk ends inside
    the encoding of a character (the text before it, and the character
    itself, being well encoded), [decode] raises, the bare [except] takes it,
    and the connection is closed without a response, whatever the later
    chunks hold and whatever the request asks for. *)
Theorem recv_loop_cut_character (w : world) (conn : connection) (s : str)
  (data : bytes) (c : N) (x : bytes) (k : nat) :
  encode_utf8 s = Ok data ->
  utf8_encode_char c = Ok x ->
  0 < k < length x ->
  conn 0 = data ++ firstn k x ->
  forall fuel,
    recv_loop conn (S fuel) 0 [] = DecodeFailed /\
    server_connection w conn (S fuel) = Dropped.
Proof.
  intros Hs Hx Hk H0 fuel.
  assert (Hd : decode_utf8 (conn 0) = None).
  { rewrite H0, (@decode_utf8_after s data (firstn k x) Hs),
      (@decode_utf8_cut_char c x k Hx Hk).
    reflexivity. }
  unfold server_connection. cbn [recv_loop]. rewrite Hd. now split.
Qed.

Lemma recv_loop_cut_character_witness :
  server_connection sample_world
    (chunks_then_closed
       [b "GET /caf" ++ [xc3]; [xa9] ++ b (".html HTTP/1.1" ++ crlf ++ crlf)]) 2
  = Dropped.
Proof.
  refine (proj2 (@recv_loop_cut_character sample_world
                   (chunks_then_closed
                      [b "GET /caf" ++ [xc3];
                       [xa9] ++ b (".html HTTP/1.1" ++ crlf ++ crlf)])
                   (u "GET /caf") (b "GET /caf") 233%N [xc3; xa9] 1
                   _ _ _ _ 1)).
  - vm_compute. reflexivity.
  - vm_compute. reflexivity.
  - cbn. lia.
  - reflexivity.
Defined.

(** ** More on the encoder and the listing *)

(** X1.  [encode] and [decode] are inverse to each other: a text encodes to
    given bytes exactly when these bytes decode to the text.  So whatever the
    server decodes from a connection could be encoded again, and every
    encoding it sends decodes to the text it came from. *)
Theorem utf8_roundtrip (s : str) (data : bytes) :
  encode_utf8 s = Ok data <-> decode_utf8 data = Some s.
Proof. split; [apply decode_encode_utf8 | apply encode_decode_utf8]. Qed.

Lemma encode_utf8_app (x y : str) (x' y' : bytes) :
  encode_utf8 x = Ok x' -> encode_utf8 y = Ok y' ->
  encode_utf8 (x ++ y) = Ok (x' ++ y').
Proof.
  revert x'. induction x as [|c x IH]; intros x'; cbn [encode_utf8 app].
  - now intros [= <-].
  - destruct (utf8_encode_char c) as [a|e]; cbn [bind]; [|discriminate].
    destruct (encode_utf8 x) as [z|e]; cbn [bind]; [|discriminate].
    intros [= <-] Hy. rewrite (IH z eq_refl Hy). cbn [bind].
    now rewrite app_assoc.
Qed.

Lemma encode_utf8_join (names : list str) (encs : list bytes) :
  Forall2 (fun n e => encode_utf8 n = Ok e) names encs ->
  encode_utf8 (PySeq.join CRLF names) = Ok (PySeq.join bCRLF encs).
Proof.
  induction 1 as [|n e names encs Hn Hrest IH]; [reflexivity|].
  destruct Hrest as [|n' e' names encs Hn' Hrest]; [exact Hn|].
  change (PySeq.join CRLF (n :: n' :: names))
    with (n ++ CRLF ++ PySeq.join CRLF (n' :: names)).
  change (PySeq.join bCRLF (e :: e' :: encs))
    with (e ++ bCRLF ++ PySeq.join bCRLF (e' :: encs)).
  apply encode_utf8_app; [exact Hn|].
  apply encode_utf8_app; [reflexivity | exact IH].
Qed.

(** X2.  The body of a directory listing is made of the entry names one by
    one: it is the UTF-8 encodings of the names joined by the two bytes CR
    LF, so a peer that splits the body at CR LF bytes reads whole encoded
    names. *)
Theorem response_path_listing_bytes (w : world) (path : str)
  (names : list str) (encs : list bytes) :
  PySeq.endswith N.eqb path (u ".py") = false ->
  fs w (location w path) = Directory names ->
  Forall2 (fun n e => encode_utf8 n = Ok e) names encs ->
  response_path w path = Ok (PySeq.join bCRLF encs, b "text/plain").
Proof.
  intros E Hfs Henc.
  now rewrite (response_path_directory w path E Hfs), (encode_utf8_join Henc).
Qed.

Lemma response_path_listing_bytes_witness :
  response_path sample_world (u "/")
  = Ok (PySeq.join bCRLF
          [b "a.html"; b "b.png"; b "make.py"; b "notes"; b "fail.py"],
        b "text/plain").
Proof.
  apply (@response_path_listing_bytes sample_world (u "/") sample_listing).
  - vm_compute. reflexivity.
  - vm_compute. reflexivity.
  - repeat constructor.
Defined.

(** ** What the resolver and the dispatch raise *)







(** ** The responses *)

Lemma status_line_response_ok (body mimetype : bytes) :
  status_line (response_ok body mimetype) = b "HTTP/1.1 200 OK".
Proof.
  unfold status_line. rewrite response_ok_format.
  change bCRLF with ["013"%byte; "010"%byte].
  rewrite (@PySeqFacts.split_piece _ _ byte_eqb_eq); [reflexivity| |reflexivity].
  discriminate.
Qed.

(** X10.  Whatever is sent begins with one of three status lines: 200 for
    the content that [response_path] returned, 405 and 404 for the two
    recovered exceptions.  The server has no other status. *)
Theorem server_sent_status_line (w : world) (request : str) (response : bytes) :
  server_sent w request = Some response ->
  status_line response = b "HTTP/1.1 200 OK" \/
  status_line response = b "HTTP/1.1 405 Method Not Allowed" \/
  status_line response = b "HTTP/1.1 404 Not Found".
Proof.
  unfold server_sent. rewrite server_dispatch_unfold.
  destruct (parse_request request) as [path|e].
  - destruct (response_path w path) as [[content mimetype]|e].
    + intros [= <-]. left. apply status_line_response_ok.
    + destruct e; try discriminate; intros [= <-]; right;
        [left | right]; vm_compute; reflexivity.
  - destruct e; try discriminate; intros [= <-]; right;
      [left | right]; vm_compute; reflexivity.
Qed.

Lemma server_sent_status_line_witness :
  status_line (response_ok (b "<h1>hi</h1>") (b "text/html")) = b "HTTP/1.1 200 OK" \/
  status_line (response_ok (b "<h1>hi</h1>") (b "text/html"))
  = b "HTTP/1.1 405 Method Not Allowed" \/
  status_line (response_ok (b "<h1>hi</h1>") (b "text/html"))
  = b "HTTP/1.1 404 Not Found".
Proof.
  apply (@server_sent_status_line sample_world
           (request_of "GET /a.html HTTP/1.1")).
  vm_compute. reflexivity.
Defined.

(** X16.  A response to a successful request tells its content and type
    apart: two calls of [response_ok] with mimetypes free of CRLF give the
    same bytes only for the same body and the same mimetype. *)
Theorem response_ok_injective (body1 body2 mimetype1 mimetype2 : bytes) :
  PySeq.contains Byte.eqb mimetype1 bCRLF = false ->
  PySeq.contains Byte.eqb mimetype2 bCRLF = false ->
  response_ok body1 mimetype1 = response_ok body2 mimetype2 ->
  body1 = body2 /\ mimetype1 = mimetype2.
Proof.
  intros H1 H2. rewrite !response_ok_format.
  intros H%app_inv_head%app_inv_head. rewrite <- !app_assoc in H.
  apply app_inv_head in H.
  pose proof (@PySeqFacts.split_once_at _ _ byte_eqb_eq _ _
                ["013"%byte; "010"%byte] mimetype1 body1 byte_CR_LF H1) as C1.
  pose proof (@PySeqFacts.split_once_at _ _ byte_eqb_eq _ _
                ["013"%byte; "010"%byte] mimetype2 body2 byte_CR_LF H2) as C2.
  change (bCRLF ++ bCRLF ++ ?x)
    with (["013"%byte; "010"%byte; "013"%byte; "010"%byte] ++ x) in H.
  rewrite H in C1. rewrite C1 in C2. now injection C2 as -> ->.
Qed.

Lemma response_ok_injective_witness :
  response_ok (b "a") (b "text/plain") <> response_ok (b "b") (b "text/plain").
Proof.
  intros H.
  destruct (@response_ok_injective (b "a") (b "b") (b "text/plain")
              (b "text/plain") eq_refl eq_refl H) as [Hb _].
  discriminate Hb.
Defined.

(** ** Requests from the line to the response *)

Lemma first_line_of (line rest : str) :
  PySeq.contains N.eqb line CRLF = false ->
  first_line (line ++ CRLF ++ rest) = Ok line /\ first_line line = Ok line.
Proof.
  intros H. unfold first_line. change CRLF with [13%N; 10%N] in *.
  rewrite (@PySeqFacts.split_piece _ _ N.eqb_eq) by (discriminate || exact H).
  now rewrite PySeqFacts.split_absent.
Qed.

(** X12.  Only the first line of a request is read: what follows the first
    CRLF, headers and body alike, has no effect on the result of
    [parse_request], be it the path or an exception. *)
Theorem parse_request_first_line_only (line rest : str) :
  PySeq.contains N.eqb line CRLF = false ->
  parse_request (line ++ CRLF ++ rest) = parse_request line.
Proof.
  intros H. destruct (first_line_of line rest H) as [H1 H2].
  unfold parse_request, request_tokens. now rewrite H1, H2.
Qed.

Lemma parse_request_first_line_only_witness :
  parse_request (u "GET /a.html HTTP/1.1" ++ CRLF ++
                 u "Host: localhost" ++ CRLF ++ CRLF ++ u "body")
  = parse_request (u "GET /a.html HTTP/1.1").
Proof.
  apply (@parse_request_first_line_only (u "GET /a.html HTTP/1.1")).
  vm_compute. reflexivity.
Defined.

(** X13.  A request line made of [GET], a path and a version, separated by
    single spaces and ended by CRLF, is accepted whatever the path and the
    version are, as long as they hold neither a space nor a carriage return:
    the version is not checked, the path is not decoded or normalised, and
    [parse_request] returns it as it came. *)
Theorem parse_request_well_formed (path version rest : str) :
  Forall (fun y => y <> 32%N /\ y <> 13%N) path ->
  Forall (fun y => y <> 32%N /\ y <> 13%N) version ->
  parse_request ((u "GET" ++ SP ++ path ++ SP ++ version) ++ CRLF ++ rest)
  = Ok path.
Proof.
  intros Hp Hv. exact (proj2 (parse_request_get_line rest Hp Hv)).
Qed.

Lemma parse_request_well_formed_witness :
  parse_request ((u "GET" ++ SP ++ u "/../%2e%2e/x?y=1" ++ SP ++ u "FTP/9")
                 ++ CRLF ++ u "junk")
  = Ok (u "/../%2e%2e/x?y=1").
Proof.
  apply parse_request_well_formed;
    repeat constructor; discriminate.
Defined.

(** X11.  The method is looked at before anything else: a request with three
    tokens and a method other than [GET] is answered 405 on every host,
    whether the path exists or not, is a script or not. *)
Theorem server_sent_method_first (w : world) (request method path version : str) :
  request_tokens request = Ok [method; path; version] ->
  method <> u "GET" ->
  server_sent w request = Some response_method_not_allowed.
Proof.
  intros Htok Hm. unfold server_sent. rewrite server_dispatch_unfold.
  rewrite (parse_request_three _ Htok), (str_eqb_neq Hm). reflexivity.
Qed.

Lemma server_sent_method_first_witness :
  server_sent sample_world (request_of "DELETE /missing.py HTTP/1.1")
  = Some response_method_not_allowed.
Proof.
  apply (@server_sent_method_first sample_world
           (request_of "DELETE /missing.py HTTP/1.1")
           (u "DELETE") (u "/missing.py") (u "HTTP/1.1")).
  - vm_compute. reflexivity.
  - discriminate.
Defined.



(** X15.  The document root does not confine the resolver: when what follows
    the first character of the path begins with a separator, the join drops
    the root, and a regular file at that absolute location is returned like
    any file under the root. *)
Theorem response_path_outside_root (w : world) (c : N) (rest : str)
  (content : bytes) (file_type : string) :
  PySeq.startswith N.eqb rest (u "/") = true ->
  PySeq.endswith N.eqb (c :: rest) (u ".py") = false ->
  fs w rest = Regular content ->
  mime_db w (c :: rest) = Some file_type ->
  is_ascii file_type = true ->
  location w (c :: rest) = rest /\
  response_path w (c :: rest) = Ok (content, b file_type).
Proof.
  intros Habs E Hfs Hdb Ha.
  assert (Hloc : location w (c :: rest) = rest).
  { unfold location, os_path_join. cbn [skipn]. now rewrite Habs. }
  split; [exact Hloc|].
  rewrite <- Hloc in Hfs.
  now rewrite (response_path_regular w (c :: rest) E Hfs), Hdb,
    (encode_utf8_ascii _ Ha).
Qed.

Lemma response_path_outside_root_witness :
  response_path outside_world (u "//etc/notes.txt")
  = Ok (b "not for the web", b "text/plain").
Proof.
  refine (proj2 (@response_path_outside_root outside_world 47%N
                   (u "/etc/notes.txt") (b "not for the web")
                   "text/plain"%string _ _ _ _ _));
    vm_compute; reflexivity.
Defined.
